(** * rp1210: VIN retrieval over J1939/BAM and the ActualDLL / ShimDLL relay

    A shallow embedding of the notebooks [VDA.ipynb] (raw CAN layer) and
    [DLL_Layer.ipynb] (TCP middleware), with the properties of the
    natural-language specification stated and proved over it.

    Conventions.
    - Python [int] is [Z]; Python [bytes]/[bytearray] is [list byte];
      Python [str] is the list of its code points ([list Z]).
    - [struct.pack]/[struct.unpack] and the codecs raise exceptions in
      Python: the embedding returns [option] (or the [result] type below).
    - The blocking receive loop is a recursion over the finite list of
      frames the socket delivers; when the list is used up the loop is
      blocked in [recvfrom] for ever, which is the outcome [Blocked]. *)

From Stdlib Require Import Strings.String Strings.Ascii Strings.Byte.
From Stdlib Require Import ZArith List Bool Lia.
Import ListNotations.
Local Open Scope Z_scope.

(** ** Python values *)

Definition bytes := list byte.
Definition pystr := list Z.

Definition Z_of_byte (b : byte) : Z := Z.of_N (Byte.to_N b).

Definition byte_of_Z (z : Z) : byte :=
  match Byte.of_N (Z.to_N z) with
  | Some b => b
  | None => x00
  end.

(** A [bytes] literal [b"..."] and a [str] literal ["..."]. *)
Definition bytes_lit (s : string) : bytes := list_byte_of_string s.
Definition str_lit (s : string) : pystr := map Z_of_byte (list_byte_of_string s).

(** [bytes([z0, z1, ...])] for values that are in range. *)
Definition bytes_of_ints (l : list Z) : bytes := map byte_of_Z l.

(** [b.ljust(n, b'\x00')]: pad on the right up to [n] bytes, never cut. *)
Definition ljust (b : bytes) (n : nat) : bytes :=
  b ++ repeat x00 (n - length b).

(** [b[i]] for an index that is in range ([data] always has 8 bytes where
    the source indexes it). *)
Definition byte_at (b : bytes) (i : nat) : Z := Z_of_byte (nth i b x00).

(** [b[i:j]] for [0 <= i <= j]: Python slices clip at the end. *)
Definition slice {A} (l : list A) (i j : nat) : list A :=
  firstn (j - i) (skipn i l).

(** ** [struct] with the format [can_frame_fmt = "=LB3x8s"]

    [=] is the native byte order with standard sizes and no alignment, so
    the byte order of the identifier is the host's. *)

Inductive byteorder := LittleEndian | BigEndian.

Definition le_bytes4 (x : Z) : bytes :=
  [ byte_of_Z (Z.land x 255);
    byte_of_Z (Z.land (Z.shiftr x 8) 255);
    byte_of_Z (Z.land (Z.shiftr x 16) 255);
    byte_of_Z (Z.land (Z.shiftr x 24) 255) ].

Definition le_int (b : bytes) : Z :=
  fold_right (fun x acc => Z_of_byte x + 256 * acc) 0 b.

Definition pack_L (bo : byteorder) (x : Z) : bytes :=
  match bo with
  | LittleEndian => le_bytes4 x
  | BigEndian => rev (le_bytes4 x)
  end.

Definition unpack_L (bo : byteorder) (b : bytes) : Z :=
  match bo with
  | LittleEndian => le_int b
  | BigEndian => le_int (rev b)
  end.

(** The [8s] field: the argument is cut or padded with zero bytes to 8. *)
Definition pack_8s (data : bytes) : bytes := ljust (firstn 8 data) 8.

(** [struct.pack(can_frame_fmt, can_id, dlc, data)]; [None] is
    [struct.error] (an integer out of the range of its field). *)
Definition pack (bo : byteorder) (can_id dlc : Z) (data : bytes) : option bytes :=
  if (0 <=? can_id) && (can_id <? 2 ^ 32) && (0 <=? dlc) && (dlc <? 256)
  then Some (pack_L bo can_id ++ [byte_of_Z dlc] ++ repeat x00 3 ++ pack_8s data)
  else None.

(** [struct.unpack(can_frame_fmt, cf)]; [None] is [struct.error] (the
    buffer is not 16 bytes long).  The three pad bytes are skipped. *)
Definition unpack (bo : byteorder) (cf : bytes) : option (Z * Z * bytes) :=
  if Nat.eqb (length cf) 16
  then Some (unpack_L bo (firstn 4 cf), byte_at cf 4, slice cf 8 16)
  else None.

(** ** [send_vin_request] *)

Definition CAN_EFF_FLAG : Z := 0x80000000.

Definition vin_request_can_id : Z := Z.lor 0x18EA00F9 CAN_EFF_FLAG.
Definition vin_request_data : bytes := bytes_of_ints [0xEC; 0xFE; 0x00].

(** The frame that [send_vin_request] builds before sending it. *)
Definition vin_request_frame (bo : byteorder) : option bytes :=
  pack bo vin_request_can_id 3 (ljust vin_request_data 8).

(** Identifier fields as [receive_bam_vin] extracts them. *)
Definition arb_id_of (can_id : Z) : Z := Z.land can_id 0x1FFFFFFF.
Definition pgn_of (can_id : Z) : Z := Z.land (Z.shiftr (arb_id_of can_id) 8) 0xFFFF.
Definition src_of (can_id : Z) : Z := Z.land (arb_id_of can_id) 0xFF.

(** ** [receive_bam_vin]: the reassembly state machine *)

(** The local variables of [receive_bam_vin]. *)
Record rstate := mk_rstate {
  vin_bytes : bytes;
  total_length : Z;
  expected_packets : Z;
  collecting : bool;
  received_packets : Z
}.

Definition init_rstate : rstate := mk_rstate [] 0 0 false 0.

Definition expected_src : Z := 0x00.

(** The two guards of the [if]/[elif] of the loop body. *)
Definition is_control (can_id : Z) (data : bytes) : bool :=
  (pgn_of can_id =? 0xECFF) && (byte_at data 0 =? 0x20)
  && (src_of can_id =? expected_src)
  && (if list_eq_dec Byte.byte_eq_dec (slice data 5 8) (bytes_of_ints [0xEC; 0xFE; 0x00])
      then true else false).

Definition is_data (st : rstate) (can_id : Z) : bool :=
  (pgn_of can_id =? 0xEBFF) && collecting st && (src_of can_id =? expected_src).

(** One turn of the [while True] loop on a decoded frame: the new state and
    whether the loop [break]s. *)
Definition step (st : rstate) (can_id dlc : Z) (data : bytes) : rstate * bool :=
  if is_control can_id data then
    (mk_rstate [] (byte_at data 1) (byte_at data 2) true 0, false)
  else if is_data st can_id then
    let payload := slice data 1 8 in
    let st' := mk_rstate (vin_bytes st ++ payload) (total_length st)
                         (expected_packets st) (collecting st)
                         (received_packets st + 1) in
    (st', Z.of_nat (length (vin_bytes st')) >=? total_length st')
  else (st, false).

(** How a run of the loop over the frames the socket delivers ends. *)
Inductive loop_end :=
| Broke (consumed : nat) (st : rstate)   (* [break] after that many frames *)
| StructError (consumed : nat)           (* [struct.unpack] raised *)
| Blocked (st : rstate).                 (* waiting in [recvfrom] for ever *)

Fixpoint bam_loop (bo : byteorder) (st : rstate) (frames : list bytes) (n : nat)
  : loop_end :=
  match frames with
  | [] => Blocked st
  | cf :: rest =>
    match unpack bo cf with
    | None => StructError n
    | Some (can_id, dlc, data) =>
      let '(st', brk) := step st can_id dlc data in
      if brk then Broke (S n) st' else bam_loop bo st' rest (S n)
    end
  end.

(** [b.decode('ascii', errors='ignore')]: bytes above 0x7F are skipped. *)
Definition decode_ascii_ignore (b : bytes) : pystr :=
  map Z_of_byte (filter (fun x => Z_of_byte x <? 128) b).

(** What a Python call does: return, raise, or never come back. *)
Inductive exn := struct_error | UnicodeDecodeError | UnicodeEncodeError.

Inductive result (A : Type) :=
| Ret (a : A)
| Raise (e : exn)
| Hang.
Arguments Ret {A} a.
Arguments Raise {A} e.
Arguments Hang {A}.

Definition receive_bam_vin (bo : byteorder) (frames : list bytes) : result pystr :=
  match bam_loop bo init_rstate frames 0 with
  | Broke _ st => Ret (decode_ascii_ignore (slice (vin_bytes st) 0 17))
  | StructError _ => Raise struct_error
  | Blocked _ => Hang
  end.

(** ** The default codec of [bytes.decode()] and [str.encode()]: strict UTF-8 *)

Definition in_range (lo hi : Z) (b : byte) : bool :=
  (lo <=? Z_of_byte b) && (Z_of_byte b <=? hi).

Definition cont (b : byte) : Z := Z_of_byte b - 0x80.

(** [b.decode()]; [None] is [UnicodeDecodeError]. *)
Fixpoint utf8_decode (b : bytes) : option pystr :=
  match b with
  | [] => Some []
  | b0 :: r0 =>
    let c0 := Z_of_byte b0 in
    if c0 <? 0x80 then option_map (cons c0) (utf8_decode r0)
    else if c0 <? 0xC2 then None
    else if c0 <? 0xE0 then
      match r0 with
      | b1 :: r1 =>
        if in_range 0x80 0xBF b1
        then option_map (cons ((c0 - 0xC0) * 64 + cont b1)) (utf8_decode r1)
        else None
      | _ => None
      end
    else if c0 <? 0xF0 then
      match r0 with
      | b1 :: b2 :: r2 =>
        if in_range (if c0 =? 0xE0 then 0xA0 else 0x80)
                    (if c0 =? 0xED then 0x9F else 0xBF) b1
           && in_range 0x80 0xBF b2
        then option_map (cons ((c0 - 0xE0) * 4096 + cont b1 * 64 + cont b2))
                        (utf8_decode r2)
        else None
      | _ => None
      end
    else if c0 <? 0xF5 then
      match r0 with
      | b1 :: b2 :: b3 :: r3 =>
        if in_range (if c0 =? 0xF0 then 0x90 else 0x80)
                    (if c0 =? 0xF4 then 0x8F else 0xBF) b1
           && in_range 0x80 0xBF b2 && in_range 0x80 0xBF b3
        then option_map
               (cons ((c0 - 0xF0) * 262144 + cont b1 * 4096 + cont b2 * 64 + cont b3))
               (utf8_decode r3)
        else None
      | _ => None
      end
    else None
  end.

Definition utf8_encode_cp (c : Z) : option bytes :=
  if c <? 0 then None
  else if c <? 0x80 then Some [byte_of_Z c]
  else if c <? 0x800 then
    Some [byte_of_Z (0xC0 + c / 64); byte_of_Z (0x80 + c mod 64)]
  else if c <? 0x10000 then
    if (0xD800 <=? c) && (c <=? 0xDFFF) then None
    else Some [byte_of_Z (0xE0 + c / 4096); byte_of_Z (0x80 + (c / 64) mod 64);
               byte_of_Z (0x80 + c mod 64)]
  else if c <? 0x110000 then
    Some [byte_of_Z (0xF0 + c / 262144); byte_of_Z (0x80 + (c / 4096) mod 64);
          byte_of_Z (0x80 + (c / 64) mod 64); byte_of_Z (0x80 + c mod 64)]
  else None.

(** [s.encode()]; [None] is [UnicodeEncodeError] (a lone surrogate). *)
Fixpoint utf8_encode (s : pystr) : option bytes :=
  match s with
  | [] => Some []
  | c :: r =>
    match utf8_encode_cp c, utf8_encode r with
    | Some a, Some b => Some (a ++ b)
    | _, _ => None
    end
  end.

Definition str_eqb (a b : pystr) : bool :=
  if list_eq_dec Z.eq_dec a b then true else false.

(** ** Effects of the services

    A call yields the list of the actions it performed on its sockets, in
    order, and how it ended.  What the [recv] calls return is an argument
    of the call.  Console output ([print]) is left out. *)

Inductive event :=
| TcpBind (port : Z)         (* listening socket: bind, listen *)
| TcpAccept
| TcpClose
| ConnSendall (b : bytes)    (* the accepted session *)
| ConnClose
| CanOpen                    (* raw CAN socket bound to CAN_INTERFACE *)
| CanSend (frame : bytes)
| CanClose
| FwdConnect (port : Z)      (* the shim's session to the backend *)
| FwdSendall (b : bytes)
| FwdClose.

Definition io (A : Type) : Type := (list event * result A)%type.

Definition ret {A} (a : A) : io A := ([], Ret a).

Definition bind {A B} (m : io A) (k : A -> io B) : io B :=
  match m with
  | (t, Ret a) => let '(t', r) := k a in (t ++ t', r)
  | (t, Raise e) => (t, Raise e)
  | (t, Hang) => (t, Hang)
  end.

Notation "x <- m ;; k" := (bind m (fun x => k))
  (at level 61, m at next level, right associativity).
Notation "m ;;; k" := (bind m (fun _ => k))
  (at level 61, right associativity).

Definition emit (e : event) : io unit := ([e], Ret tt).

Definition or_raise {A} (e : exn) (o : option A) : io A :=
  match o with
  | Some a => ret a
  | None => ([], Raise e)
  end.

(** [with conn: body]: the session is closed when the body returns or
    raises (never, if it does not come back). *)
Definition with_conn {A} (body : io A) : io A :=
  match body with
  | (t, Hang) => (t, Hang)
  | (t, r) => (t ++ [ConnClose], r)
  end.

Definition lift_result {A} (r : result A) : io A := ([], r).

(** ** [send_vin_request] and [get_vin_from_can] *)

Definition send_vin_request (bo : byteorder) : io unit :=
  frame <- or_raise struct_error (vin_request_frame bo) ;;
  emit (CanSend frame).

Definition get_vin_from_can (bo : byteorder) (frames : list bytes) : io pystr :=
  emit CanOpen ;;;
  send_vin_request bo ;;;
  vin <- lift_result (receive_bam_vin bo frames) ;;
  emit CanClose ;;;
  ret vin.

(** ** [actualdll_socket_server] and [shimdll_socket_server] *)

Definition PORT (USE_PORT_FOR_SHIM_MODE : bool) : Z :=
  if USE_PORT_FOR_SHIM_MODE then 1555 else 1337.

Definition VIN_REQUEST : pystr := str_lit "VIN_REQUEST".

(** [req_raw] is what [conn.recv(1024)] returns, [frames] what the CAN
    socket delivers. *)
Definition actualdll_socket_server (bo : byteorder) (USE_PORT_FOR_SHIM_MODE : bool)
    (req_raw : bytes) (frames : list bytes) : io unit :=
  emit (TcpBind (PORT USE_PORT_FOR_SHIM_MODE)) ;;;
  emit TcpAccept ;;;
  with_conn (
    req <- or_raise UnicodeDecodeError (utf8_decode req_raw) ;;
    if str_eqb req VIN_REQUEST then
      vin <- get_vin_from_can bo frames ;;
      out <- or_raise UnicodeEncodeError (utf8_encode vin) ;;
      emit (ConnSendall out)
    else ret tt) ;;;
  emit TcpClose.

(** The expression that computes [modified_vin] from [real_vin]. *)
Definition TamperRule (real_vin : pystr) : pystr :=
  slice real_vin 0 10 ++ str_lit "HACKED123".

(** [req_raw] is what [conn.recv(1024)] returns, [fwd_raw] what
    [forward_sock.recv(1024)] returns. *)
Definition shimdll_socket_server (req_raw fwd_raw : bytes) : io unit :=
  emit (TcpBind 1337) ;;;
  emit TcpAccept ;;;
  with_conn (
    req <- or_raise UnicodeDecodeError (utf8_decode req_raw) ;;
    if str_eqb req VIN_REQUEST then
      emit (FwdConnect 1555) ;;;
      emit (FwdSendall (bytes_lit "VIN_REQUEST")) ;;;
      real_vin <- or_raise UnicodeDecodeError (utf8_decode fwd_raw) ;;
      let modified_vin := TamperRule real_vin in
      out <- or_raise UnicodeEncodeError (utf8_encode modified_vin) ;;
      emit (ConnSendall out) ;;;
      emit FwdClose
    else ret tt) ;;;
  emit TcpClose.

(** What the peer of the accepted session gets: the bytes written to it. *)
Fixpoint response_of (t : list event) : bytes :=
  match t with
  | [] => []
  | ConnSendall b :: t' => b ++ response_of t'
  | _ :: t' => response_of t'
  end.

Definition is_bus_event (e : event) : bool :=
  match e with CanOpen | CanSend _ | CanClose => true | _ => false end.

Definition is_forward_event (e : event) : bool :=
  match e with FwdConnect _ | FwdSendall _ | FwdClose => true | _ => false end.

Definition is_send_event (e : event) : bool :=
  match e with ConnSendall _ => true | _ => false end.

(** ** Notions used in the statements *)

(** A decoded frame that is neither a ControlPacket nor a DataPacket of the
    expected responder: wrong source address, or a PGN that is neither the
    transport-control nor the transport-data one, or a transport-control
    frame whose control code or embedded target PGN is not the expected one. *)
Definition unmatched (can_id : Z) (data : bytes) : Prop :=
  src_of can_id <> expected_src
  \/ (pgn_of can_id <> 0xECFF /\ pgn_of can_id <> 0xEBFF)
  \/ (pgn_of can_id = 0xECFF
      /\ (byte_at data 0 <> 0x20
          \/ slice data 5 8 <> bytes_of_ints [0xEC; 0xFE; 0x00])).

(** Text made of ASCII characters only. *)
Definition is_ascii (s : pystr) : Prop := Forall (fun c => 0 <= c < 128) s.

(** A raw frame that the loop ignores. *)
Definition ignored (bo : byteorder) (cf : bytes) : Prop :=
  exists can_id dlc data,
    unpack bo cf = Some (can_id, dlc, data) /\ unmatched can_id data.

(** A raw frame that is not a DataPacket of the expected responder. *)
Definition no_data (bo : byteorder) (cf : bytes) : Prop :=
  forall can_id dlc data,
    unpack bo cf = Some (can_id, dlc, data) ->
    pgn_of can_id <> 0xEBFF \/ src_of can_id <> expected_src.

(** Two raw frames that are the same up to the sequence number (byte 0) of
    a DataPacket or the packet count (byte 2) of a ControlPacket. *)
Inductive frame_sim (bo : byteorder) : bytes -> bytes -> Prop :=
| sim_same cf : frame_sim bo cf cf
| sim_data cf1 cf2 can_id dlc seq1 seq2 chunk :
    unpack bo cf1 = Some (can_id, dlc, seq1 :: chunk) ->
    unpack bo cf2 = Some (can_id, dlc, seq2 :: chunk) ->
    pgn_of can_id = 0xEBFF ->
    frame_sim bo cf1 cf2
| sim_control cf1 cf2 can_id dlc code tl cnt1 cnt2 rest :
    unpack bo cf1 = Some (can_id, dlc, code :: tl :: cnt1 :: rest) ->
    unpack bo cf2 = Some (can_id, dlc, code :: tl :: cnt2 :: rest) ->
    pgn_of can_id = 0xECFF -> Z_of_byte code = 0x20 ->
    frame_sim bo cf1 cf2.

(** States that agree on everything but [expected_packets]. *)
Definition st_sim (a b : rstate) : Prop :=
  vin_bytes a = vin_bytes b /\ total_length a = total_length b
  /\ collecting a = collecting b /\ received_packets a = received_packets b.

Definition loop_end_sim (a b : loop_end) : Prop :=
  match a, b with
  | Broke n s, Broke m t => n = m /\ st_sim s t
  | StructError n, StructError m => n = m
  | Blocked s, Blocked t => st_sim s t
  | _, _ => False
  end.

(** Example frames. *)
Definition frame_of (bo : byteorder) (can_id dlc : Z) (data : bytes) : bytes :=
  match pack bo can_id dlc data with
  | Some cf => cf
  | None => []
  end.

Definition bam_control (tl cnt : Z) : bytes :=
  frame_of LittleEndian 0x1CECFF00
    8 (bytes_of_ints [0x20; tl; cnt; 0xFF; 0xFF; 0xEC; 0xFE; 0x00]).

Definition bam_data (seq : Z) (chunk : string) : bytes :=
  frame_of LittleEndian 0x1CEBFF00 8 (byte_of_Z seq :: bytes_lit chunk).

(** ** Further notions used in the statements *)

(** A raw frame that is not a ControlPacket of the expected responder. *)
Definition no_control (bo : byteorder) (cf : bytes) : Prop :=
  forall can_id dlc data,
    unpack bo cf = Some (can_id, dlc, data) -> is_control can_id data = false.

(** What holds of the variables whenever the loop goes for the next frame:
    the accumulator holds 7 bytes per DataPacket counted, the announced
    length is a byte, and when packets were counted the accumulator is
    still short of the announced length. *)
Definition waiting_inv (st : rstate) : Prop :=
  Z.of_nat (length (vin_bytes st)) = 7 * received_packets st /\
  0 <= received_packets st /\
  0 <= total_length st <= 255 /\
  0 <= expected_packets st <= 255 /\
  (received_packets st = 0 \/ Z.of_nat (length (vin_bytes st)) < total_length st) /\
  (collecting st = false -> vin_bytes st = [] /\ total_length st = 0).

(** Two raw frames with the same payload whose identifiers agree on their
    low 24 bits (PGN field and source address); the length fields and the
    upper identifier bits (priority, flags) are free. *)
Definition same_low_24 (bo : byteorder) (cf1 cf2 : bytes) : Prop :=
  (unpack bo cf1 = None /\ unpack bo cf2 = None) \/
  exists id1 id2 dlc1 dlc2 data,
    unpack bo cf1 = Some (id1, dlc1, data) /\
    unpack bo cf2 = Some (id2, dlc2, data) /\
    id1 mod 2 ^ 24 = id2 mod 2 ^ 24.

(** The end of a run whose frame count starts [k] later. *)
Definition shift_end (k : nat) (e : loop_end) : loop_end :=
  match e with
  | Broke n st => Broke (k + n) st
  | StructError n => StructError (k + n)
  | Blocked st => Blocked st
  end.

(** A raw frame that is a DataPacket of the expected responder carrying
    [chunk] after its sequence number. *)
Definition data_frame (bo : byteorder) (cf : bytes) (chunk : bytes) : Prop :=
  exists can_id dlc seq,
    unpack bo cf = Some (can_id, dlc, seq :: chunk) /\
    pgn_of can_id = 0xEBFF /\ src_of can_id = expected_src.

(** What [receive_bam_vin] makes of the end of its loop. *)
Definition vin_of_end (e : loop_end) : result pystr :=
  match e with
  | Broke _ st => Ret (decode_ascii_ignore (slice (vin_bytes st) 0 17))
  | StructError _ => Raise struct_error
  | Blocked _ => Hang
  end.

(** [a] is the beginning of [b]. *)
Definition is_prefix (a b : bytes) : Prop := exists rest, b = a ++ rest.

(** ** [user_request_vin], the diagnostic application *)

Inductive client_event :=
| CliConnect (port : Z)
| CliSendall (b : bytes)
| CliPrint (s : pystr)
| CliClose.

(** [resp_raw] is what [s.recv(1024)] returns.  The socket is closed when
    the [with] block is left, also by an exception. *)
Definition user_request_vin (resp_raw : bytes) : list client_event * result unit :=
  let body :=
    match utf8_decode resp_raw with
    | Some vin =>
        ([CliConnect 1337; CliSendall (bytes_lit "VIN_REQUEST");
          CliPrint (str_lit "[Client] Received VIN: " ++ vin)], Ret tt)
    | None =>
        ([CliConnect 1337; CliSendall (bytes_lit "VIN_REQUEST")],
         Raise UnicodeDecodeError)
    end in
  (fst body ++ [CliClose], snd body).

(** The bytes the client writes to its socket. *)
Fixpoint client_sent (t : list client_event) : bytes :=
  match t with
  | [] => []
  | CliSendall b :: t' => b ++ client_sent t'
  | _ :: t' => client_sent t'
  end.

(** The lines the client prints. *)
Fixpoint client_printed (t : list client_event) : list pystr :=
  match t with
  | [] => []
  | CliPrint s :: t' => s :: client_printed t'
  | _ :: t' => client_printed t'
  end.

(** * Properties *)

(** ** Bytes and integers *)

Lemma Z_of_byte_range (b : byte) : 0 <= Z_of_byte b < 256.
Proof.
  unfold Z_of_byte. pose proof (Byte.to_N_bounded b) as H.
  split; [apply N2Z.is_nonneg|]. lia.
Qed.

Lemma byte_of_Z_of_byte (b : byte) : byte_of_Z (Z_of_byte b) = b.
Proof.
  unfold byte_of_Z, Z_of_byte. now rewrite N2Z.id, Byte.of_to_N.
Qed.

Lemma Z_of_byte_of_Z (z : Z) : 0 <= z < 256 -> Z_of_byte (byte_of_Z z) = z.
Proof.
  intros Hz. unfold byte_of_Z, Z_of_byte.
  destruct (Byte.of_N (Z.to_N z)) as [b|] eqn:E.
  - apply Byte.to_of_N in E. rewrite E. lia.
  - apply Byte.of_N_None_iff in E. lia.
Qed.

Lemma Z_of_byte_inj (a b : byte) : Z_of_byte a = Z_of_byte b -> a = b.
Proof.
  intros H. rewrite <- (byte_of_Z_of_byte a), <- (byte_of_Z_of_byte b).
  now rewrite H.
Qed.

Lemma land_255 (x : Z) : Z.land x 255 = x mod 256.
Proof. change 255 with (Z.ones 8). now rewrite Z.land_ones by lia. Qed.

Lemma le_int_le_bytes4 (x : Z) : 0 <= x < 2 ^ 32 -> le_int (le_bytes4 x) = x.
Proof.
  intros Hx. unfold le_int, le_bytes4. cbn [fold_right].
  rewrite !land_255, !Z.shiftr_div_pow2 by lia.
  rewrite !Z_of_byte_of_Z by (apply Z.mod_pos_bound; lia).
  change (2 ^ 8) with 256. change (2 ^ 16) with 65536.
  change (2 ^ 24) with 16777216. change (2 ^ 32) with 4294967296 in Hx.
  Z.div_mod_to_equations. lia.
Qed.

Lemma unpack_L_pack_L (bo : byteorder) (x : Z) :
  0 <= x < 2 ^ 32 -> unpack_L bo (pack_L bo x) = x.
Proof.
  intros Hx. destruct bo; unfold unpack_L, pack_L.
  - now apply le_int_le_bytes4.
  - rewrite rev_involutive. now apply le_int_le_bytes4.
Qed.

Lemma pack_L_length (bo : byteorder) (x : Z) : length (pack_L bo x) = 4%nat.
Proof. destruct bo; reflexivity. Qed.

Lemma ljust_length (b : bytes) (n : nat) :
  (length b <= n)%nat -> length (ljust b n) = n.
Proof. intros H. unfold ljust. rewrite length_app, repeat_length. lia. Qed.

Lemma pack_8s_length (data : bytes) : length (pack_8s data) = 8%nat.
Proof.
  unfold pack_8s. apply ljust_length. rewrite length_firstn. lia.
Qed.

Lemma pack_8s_short (data : bytes) :
  (length data <= 8)%nat -> pack_8s data = ljust data 8.
Proof. intros H. unfold pack_8s. now rewrite firstn_all2. Qed.

(** A packed frame, taken apart again. *)
Lemma unpack_layout (bo : byteorder) (hd : bytes) (l : byte) (p0 p1 p2 : byte)
    (body : bytes) :
  length hd = 4%nat -> length body = 8%nat ->
  unpack bo (hd ++ [l] ++ [p0; p1; p2] ++ body)
  = Some (unpack_L bo hd, Z_of_byte l, body).
Proof.
  intros Hh Hb.
  destruct hd as [|a [|b [|c [|d [|? ?]]]]]; try discriminate.
  do 9 (destruct body as [|? body]; try discriminate).
  reflexivity.
Qed.

Lemma unpack_data_length (bo : byteorder) (cf : bytes) (can_id dlc : Z) (data : bytes) :
  unpack bo cf = Some (can_id, dlc, data) -> length data = 8%nat.
Proof.
  unfold unpack. destruct (Nat.eqb (length cf) 16) eqn:E; [|discriminate].
  apply Nat.eqb_eq in E. intros H. inversion H; subst.
  unfold slice. rewrite length_firstn, length_skipn. lia.
Qed.

(** ** FrameCodec *)

(** C4. Round trip of the frame codec: for an identifier that fits 32 bits, a
    length of at most 8 and a payload of at most 8 bytes, [pack] yields a
    16-byte record that [unpack] maps back to the identifier, the length and
    the payload padded with zero bytes to 8, whatever the host byte order. *)
Theorem frame_codec_round_trip (bo : byteorder) (can_id dlc : Z) (data : bytes) :
  0 <= can_id < 2 ^ 32 -> 0 <= dlc <= 8 -> (length data <= 8)%nat ->
  exists cf,
    pack bo can_id dlc data = Some cf /\
    length cf = 16%nat /\
    unpack bo cf = Some (can_id, dlc, ljust data 8).
Proof.
  intros Hid Hdlc Hlen. unfold pack.
  replace ((0 <=? can_id) && (can_id <? 2 ^ 32) && (0 <=? dlc) && (dlc <? 256))
    with true
    by (symmetry; rewrite !andb_true_iff, !Z.leb_le, !Z.ltb_lt; lia).
  eexists. split; [reflexivity|]. split.
  - rewrite !length_app, pack_L_length, pack_8s_length. reflexivity.
  - cbn [repeat]. rewrite unpack_layout.
    + rewrite unpack_L_pack_L, Z_of_byte_of_Z, pack_8s_short by lia. reflexivity.
    + apply pack_L_length.
    + apply pack_8s_length.
Qed.

Lemma frame_codec_round_trip_witness :
  exists cf,
    pack LittleEndian 0x9CECFF00 8 (bytes_lit "VIN") = Some cf /\
    length cf = 16%nat /\
    unpack LittleEndian cf = Some (0x9CECFF00, 8, ljust (bytes_lit "VIN") 8).
Proof.
  apply (frame_codec_round_trip LittleEndian 0x9CECFF00 8 (bytes_lit "VIN"));
    [lia | lia | simpl; lia].
Defined.

(** ** RequestEncoder *)

Lemma vin_request_frame_some (bo : byteorder) :
  exists frame, vin_request_frame bo = Some frame.
Proof. destruct bo; eexists; reflexivity. Qed.

(** C8, as amended.  [send_vin_request] takes the socket only: it builds
    one frame that depends on nothing but the host byte order, and its one
    effect is to send it.  The frame decodes to the identifier
    [0x18EA00F9 | CAN_EFF_FLAG]: priority 6, PGN field 0xEA00 whose low
    (destination) byte is 0x00, the address the answer is expected from,
    the fixed byte 0xF9 in the source-address bits 0-7, and the
    extended-format bit 31 set.  The length is 3 and the payload is
    EC FE 00, the three low bytes of 0xFEEC in little-endian order,
    followed by five zero bytes. *)
Theorem send_vin_request_frame (bo : byteorder) :
  exists frame,
    send_vin_request bo = ([CanSend frame], Ret tt) /\
    vin_request_frame bo = Some frame /\
    length frame = 16%nat /\
    unpack bo frame
    = Some (vin_request_can_id, 3,
            bytes_of_ints [0xEC; 0xFE; 0x00; 0x00; 0x00; 0x00; 0x00; 0x00]) /\
    vin_request_can_id
    = Z.lor (Z.lor (Z.shiftl 6 26) (Z.lor (Z.shiftl 0xEA00 8) 0xF9)) CAN_EFF_FLAG /\
    pgn_of vin_request_can_id = 0xEA00 /\
    src_of vin_request_can_id = 0xF9 /\
    Z.testbit vin_request_can_id 31 = true /\
    arb_id_of vin_request_can_id = 0x18EA00F9 /\
    vin_request_data = firstn 3 (le_bytes4 0xFEEC) /\
    Z.land (pgn_of vin_request_can_id) 0xFF = expected_src.
Proof.
  destruct bo; eexists; repeat split; vm_compute; reflexivity.
Qed.

(** C8, as stated, fails.  Were the frame built from the requester's source
    address by a construction free of effects, then for every such address
    the call would leave no trace and the frame's source-address field
    would hold that address.  For the requester address 0x00 neither is
    so: the field holds the fixed 0xF9, and the call sends the frame. *)
Lemma vin_request_has_no_requester_address :
  ~ (forall (bo : byteorder) (requesterSourceAddress : Z),
        0 <= requesterSourceAddress < 256 ->
        exists frame can_id data,
          fst (send_vin_request bo) = [] /\
          vin_request_frame bo = Some frame /\
          unpack bo frame = Some (can_id, 3, data) /\
          pgn_of can_id = 0xEA00 /\
          src_of can_id = requesterSourceAddress /\
          Z.testbit can_id 31 = true).
Proof.
  intros H.
  destruct (H LittleEndian 0x00 ltac:(lia))
    as (frame & can_id & data & _ & F & U & _ & S & _).
  vm_compute in F. inversion F; subst frame.
  vm_compute in U. inversion U; subst can_id.
  vm_compute in S. discriminate S.
Qed.

(** The same failure read off the effect alone: the call always sends. *)
Lemma send_vin_request_is_not_pure (bo : byteorder) :
  fst (send_vin_request bo) <> [].
Proof. destruct bo; vm_compute; discriminate. Qed.

(** ** Reassembler: one turn of the loop *)

(** Settles [x >=? y] once the lengths in it are known. *)
Ltac settle_geb :=
  symmetry; rewrite Z.geb_leb; first [apply Z.leb_le; lia | apply Z.leb_gt; lia].

Lemma step_control (st : rstate) (can_id dlc : Z) (data : bytes) :
  is_control can_id data = true ->
  step st can_id dlc data
  = (mk_rstate [] (byte_at data 1) (byte_at data 2) true 0, false).
Proof. intros H. unfold step. now rewrite H. Qed.

Lemma data_pgn_not_control (can_id : Z) (data : bytes) :
  pgn_of can_id = 0xEBFF -> is_control can_id data = false.
Proof. intros H. unfold is_control. now rewrite H. Qed.

Lemma step_data (st : rstate) (can_id dlc : Z) (seq : byte) (chunk : bytes) :
  pgn_of can_id = 0xEBFF -> src_of can_id = expected_src ->
  collecting st = true -> length chunk = 7%nat ->
  step st can_id dlc (seq :: chunk)
  = (mk_rstate (vin_bytes st ++ chunk) (total_length st) (expected_packets st)
               true (received_packets st + 1),
     Z.of_nat (length (vin_bytes st ++ chunk)) >=? total_length st).
Proof.
  intros Hp Hs Hc Hl. unfold step.
  rewrite (data_pgn_not_control _ _ Hp).
  unfold is_data. rewrite Hp, Hs, Hc. cbn [Z.eqb Pos.eqb andb expected_src].
  unfold slice. cbn [skipn Nat.sub vin_bytes total_length].
  now rewrite firstn_all2 by lia.
Qed.

Lemma unmatched_guards (st : rstate) (can_id : Z) (data : bytes) :
  unmatched can_id data ->
  is_control can_id data = false /\ is_data st can_id = false.
Proof.
  unfold unmatched, is_control, is_data.
  intros [Hs | [[Hc Hd] | [Hc [H0 | Ht]]]].
  - apply Z.eqb_neq in Hs. rewrite Hs. now rewrite !andb_false_r.
  - apply Z.eqb_neq in Hc, Hd. now rewrite Hc, Hd.
  - apply Z.eqb_neq in H0. rewrite Hc, H0. now cbn.
  - rewrite Hc. cbn [Z.eqb Pos.eqb].
    destruct (list_eq_dec _ _ _) as [E|E]; [contradiction|].
    now rewrite !andb_false_r.
Qed.

Lemma step_unmatched (st : rstate) (can_id dlc : Z) (data : bytes) :
  unmatched can_id data -> step st can_id dlc data = (st, false).
Proof.
  intros H. destruct (unmatched_guards st _ _ H) as [Hc Hd].
  unfold step. now rewrite Hc, Hd.
Qed.

(** A DataPacket that arrives before any ControlPacket is ignored too. *)
Lemma step_data_when_idle (st : rstate) (can_id dlc : Z) (data : bytes) :
  pgn_of can_id = 0xEBFF -> collecting st = false ->
  step st can_id dlc data = (st, false).
Proof.
  intros Hp Hc. unfold step, is_data.
  now rewrite (data_pgn_not_control _ _ Hp), Hc, andb_false_r.
Qed.

Lemma step_break_full (st st' : rstate) (can_id dlc : Z) (data : bytes) :
  step st can_id dlc data = (st', true) ->
  total_length st' <= Z.of_nat (length (vin_bytes st')).
Proof.
  unfold step. destruct (is_control can_id data); [discriminate|].
  destruct (is_data st can_id); [|discriminate].
  intros H. inversion H as [[Hst Hb]]. cbn [vin_bytes total_length] in *.
  apply Z.geb_le in Hb. exact Hb.
Qed.

Lemma step_break_is_data (st st' : rstate) (can_id dlc : Z) (data : bytes) :
  step st can_id dlc data = (st', true) ->
  pgn_of can_id = 0xEBFF /\ src_of can_id = expected_src.
Proof.
  unfold step. destruct (is_control can_id data); [discriminate|].
  destruct (is_data st can_id) eqn:E; [|discriminate].
  intros _. unfold is_data in E. rewrite !andb_true_iff, !Z.eqb_eq in E. tauto.
Qed.

(** ** Reassembler: the loop, on a host of byte order [bo] *)

Section Reassembler.

Variable bo : byteorder.

Lemma bam_loop_skip_unmatched (st : rstate) (cf : bytes)
    (can_id dlc : Z) (data : bytes) (rest : list bytes) (n : nat) :
  unpack bo cf = Some (can_id, dlc, data) -> unmatched can_id data ->
  bam_loop bo st (cf :: rest) n = bam_loop bo st rest (S n).
Proof.
  intros Hu Hm. cbn [bam_loop].
  now rewrite Hu, (step_unmatched st can_id dlc data Hm).
Qed.

(** C5. A frame whose source address or PGN does not match, or a
    transport-control frame failing the control-code or target-PGN check, is
    ignored in every state: the turn of the loop leaves all five variables
    as they were and does not end the loop, which goes on with the next
    frame from the same state. *)
Theorem unmatched_frame_preserves_state (st : rstate)
    (cf : bytes) (can_id dlc : Z) (data : bytes) (rest : list bytes) (n : nat) :
  unpack bo cf = Some (can_id, dlc, data) ->
  unmatched can_id data ->
  step st can_id dlc data = (st, false) /\
  bam_loop bo st (cf :: rest) n = bam_loop bo st rest (S n).
Proof.
  intros Hu Hm. split.
  - now apply step_unmatched.
  - now apply bam_loop_skip_unmatched with (can_id := can_id) (dlc := dlc) (data := data).
Qed.

Lemma bam_loop_cons (st : rstate) (cf : bytes)
    (rest : list bytes) (n : nat) (can_id dlc : Z) (data : bytes) :
  unpack bo cf = Some (can_id, dlc, data) ->
  bam_loop bo st (cf :: rest) n
  = (if snd (step st can_id dlc data)
     then Broke (S n) (fst (step st can_id dlc data))
     else bam_loop bo (fst (step st can_id dlc data)) rest (S n)).
Proof.
  intros H. cbn [bam_loop]. rewrite H.
  now destruct (step st can_id dlc data).
Qed.

Lemma bam_loop_break_full (frames : list bytes) :
  forall st n m st',
    bam_loop bo st frames n = Broke m st' ->
    total_length st' <= Z.of_nat (length (vin_bytes st')).
Proof.
  induction frames as [|cf rest IH]; intros st n m st' H; [discriminate|].
  cbn [bam_loop] in H. destruct (unpack bo cf) as [[[can_id dlc] data]|]; [|discriminate].
  destruct (step st can_id dlc data) as [st1 [|]] eqn:E.
  - inversion H; subst. eapply step_break_full; eassumption.
  - eapply IH; eassumption.
Qed.

Lemma bam_loop_no_data (frames : list bytes) :
  Forall (no_data bo) frames ->
  forall st n m st', bam_loop bo st frames n <> Broke m st'.
Proof.
  induction 1 as [|cf rest Hcf _ IH]; intros st n m st' H; [discriminate|].
  cbn [bam_loop] in H.
  destruct (unpack bo cf) as [[[can_id dlc] data]|] eqn:U; [|discriminate].
  destruct (step st can_id dlc data) as [st1 [|]] eqn:E.
  - apply step_break_is_data in E. destruct (Hcf _ _ _ U); tauto.
  - eapply IH; eassumption.
Qed.

Lemma step_collecting (st : rstate) (can_id dlc : Z) (data : bytes) :
  collecting st = true -> collecting (fst (step st can_id dlc data)) = true.
Proof.
  intros H. unfold step. destruct (is_control can_id data); [reflexivity|].
  now destruct (is_data st can_id).
Qed.

Lemma bam_loop_collecting (frames : list bytes) :
  forall st n st',
    collecting st = true -> bam_loop bo st frames n = Blocked st' ->
    collecting st' = true.
Proof.
  induction frames as [|cf rest IH]; intros st n st' Hc H.
  - now inversion H; subst.
  - cbn [bam_loop] in H.
    destruct (unpack bo cf) as [[[can_id dlc] data]|]; [|discriminate].
    pose proof (step_collecting st can_id dlc data Hc) as Hc'.
    destruct (step st can_id dlc data) as [st1 [|]]; [discriminate|].
    eapply IH; eassumption.
Qed.

Lemma bam_loop_ignored (us : list bytes) :
  Forall (ignored bo) us ->
  forall st rest n,
    bam_loop bo st (us ++ rest) n = bam_loop bo st rest (length us + n).
Proof.
  induction 1 as [|cf us (can_id & dlc & data & U & M) _ IH]; intros st rest n.
  - reflexivity.
  - cbn [app length].
    rewrite (bam_loop_skip_unmatched st cf _ _ _ (us ++ rest) n U M).
    rewrite IH. f_equal. lia.
Qed.

Lemma slice_0_17 (l : bytes) : slice l 0 17 = firstn 17 l.
Proof. reflexivity. Qed.

(** C1, as amended.  When the loop ends, the accumulated length has reached
    [total_length] and the VIN returned is the first 17 accumulated bytes
    (all of them when there are fewer), decoded as ASCII with the bytes
    above 0x7F skipped.  [total_length] does not cut the result: it is the
    first [min(total_length, 17)] bytes when [total_length] is at least 17
    or the accumulated length is exactly [total_length]. *)
Theorem complete_vin_first_17 (frames : list bytes)
    (n : nat) (st : rstate) :
  bam_loop bo init_rstate frames 0 = Broke n st ->
  receive_bam_vin bo frames = Ret (decode_ascii_ignore (firstn 17 (vin_bytes st))) /\
  total_length st <= Z.of_nat (length (vin_bytes st)) /\
  (17 <= total_length st \/ Z.of_nat (length (vin_bytes st)) = total_length st ->
   receive_bam_vin bo frames
   = Ret (decode_ascii_ignore
            (firstn (Z.to_nat (Z.min (total_length st) 17)) (vin_bytes st)))).
Proof.
  intros H.
  assert (R : receive_bam_vin bo frames
              = Ret (decode_ascii_ignore (firstn 17 (vin_bytes st)))).
  { unfold receive_bam_vin. now rewrite H, slice_0_17. }
  split; [exact R|]. split; [eapply bam_loop_break_full; eassumption|].
  intros Hc. rewrite R. do 2 f_equal.
  destruct (Z_le_gt_dec 17 (total_length st)) as [Hge|Hlt].
  - now rewrite Z.min_r by lia.
  - destruct Hc as [Hc|Hc]; [lia|].
    rewrite Z.min_l by lia. rewrite <- Hc, Nat2Z.id.
    rewrite !firstn_all2; [reflexivity| lia | lia].
Qed.

Lemma decode_ascii_ignore_ascii (b : bytes) :
  Forall (fun x => Z_of_byte x < 128) b -> decode_ascii_ignore b = map Z_of_byte b.
Proof.
  intros H. unfold decode_ascii_ignore. f_equal.
  induction H as [|x l Hx _ IH]; [reflexivity|].
  cbn [filter]. apply Z.ltb_lt in Hx. now rewrite Hx, IH.
Qed.

(** C3. A matching ControlPacket announcing 17 bytes in 3 packets, followed
    by three matching DataPackets whose chunks carry 7, 7 and 3 meaningful
    ASCII bytes (the last one padded to 7): the loop is still waiting after
    the second DataPacket, ends on the third one (the fourth frame), and the
    VIN returned is the 17 meaningful bytes in arrival order. *)
Theorem reassembly_17_bytes_3_packets
    (cf0 cf1 cf2 cf3 : bytes) (rest : list bytes)
    (id0 id1 id2 id3 dlc0 dlc1 dlc2 dlc3 : Z) (d0 : bytes)
    (s1 s2 s3 : byte) (m1 m2 m3 pad : bytes) :
  unpack bo cf0 = Some (id0, dlc0, d0) ->
  is_control id0 d0 = true -> byte_at d0 1 = 17 -> byte_at d0 2 = 3 ->
  unpack bo cf1 = Some (id1, dlc1, s1 :: m1) ->
  unpack bo cf2 = Some (id2, dlc2, s2 :: m2) ->
  unpack bo cf3 = Some (id3, dlc3, s3 :: m3 ++ pad) ->
  pgn_of id1 = 0xEBFF -> src_of id1 = expected_src ->
  pgn_of id2 = 0xEBFF -> src_of id2 = expected_src ->
  pgn_of id3 = 0xEBFF -> src_of id3 = expected_src ->
  length m3 = 3%nat ->
  Forall (fun x => Z_of_byte x < 128) (m1 ++ m2 ++ m3) ->
  (exists st, bam_loop bo init_rstate [cf0; cf1; cf2] 0 = Blocked st) /\
  (exists st, bam_loop bo init_rstate (cf0 :: cf1 :: cf2 :: cf3 :: rest) 0
              = Broke 4 st) /\
  receive_bam_vin bo (cf0 :: cf1 :: cf2 :: cf3 :: rest)
  = Ret (map Z_of_byte (m1 ++ m2 ++ m3)) /\
  length (m1 ++ m2 ++ m3) = 17%nat.
Proof.
  intros U0 C0 T0 _ U1 U2 U3 P1 S1 P2 S2 P3 S3 L3 A.
  pose proof (unpack_data_length _ _ _ _ _ U1) as L1.
  pose proof (unpack_data_length _ _ _ _ _ U2) as L2.
  pose proof (unpack_data_length _ _ _ _ _ U3) as Lp.
  cbn [length] in L1, L2, Lp. rewrite length_app in Lp.
  assert (E3 : forall tl, bam_loop bo init_rstate (cf0 :: cf1 :: cf2 :: tl) 0
               = bam_loop bo (mk_rstate (m1 ++ m2) 17 (byte_at d0 2) true 2) tl 3).
  { intros tl.
    rewrite (bam_loop_cons _ _ _ _ _ _ _ U0), (step_control _ _ _ _ C0), T0.
    cbn [fst snd].
    rewrite (bam_loop_cons _ _ _ _ _ _ _ U1), step_data by (trivial; lia).
    cbn [fst snd vin_bytes total_length app].
    replace (Z.of_nat (length m1) >=? 17) with false
      by settle_geb.
    rewrite (bam_loop_cons _ _ _ _ _ _ _ U2), step_data by (trivial; lia).
    cbn [fst snd vin_bytes total_length expected_packets received_packets].
    rewrite length_app.
    replace (Z.of_nat (length m1 + length m2) >=? 17) with false
      by settle_geb.
    reflexivity. }
  assert (E4 : bam_loop bo init_rstate (cf0 :: cf1 :: cf2 :: cf3 :: rest) 0
               = Broke 4 (mk_rstate ((m1 ++ m2) ++ m3 ++ pad) 17 (byte_at d0 2)
                                    true 3)).
  { rewrite E3, (bam_loop_cons _ _ _ _ _ _ _ U3).
    rewrite step_data by (trivial; rewrite ?length_app; lia).
    cbn [fst snd vin_bytes total_length expected_packets received_packets].
    rewrite !length_app.
    replace (Z.of_nat (length m1 + length m2 + (length m3 + length pad)) >=? 17)
      with true by settle_geb.
    reflexivity. }
  assert (L : length (m1 ++ m2 ++ m3) = 17%nat) by (rewrite !length_app; lia).
  split; [eexists; rewrite E3; reflexivity|].
  split; [eexists; exact E4|]. split; [|exact L].
  unfold receive_bam_vin. rewrite E4, slice_0_17. cbn [vin_bytes].
  replace ((m1 ++ m2) ++ m3 ++ pad) with ((m1 ++ m2 ++ m3) ++ pad)
    by (now rewrite <- !app_assoc).
  rewrite firstn_app, firstn_all2 by lia.
  replace (17 - length (m1 ++ m2 ++ m3))%nat with 0%nat by lia.
  cbn [firstn]. rewrite app_nil_r. f_equal. now apply decode_ascii_ignore_ascii.
Qed.

(** C10. A matching ControlPacket announcing [total_length = 0] does not end
    the loop: from any state it leaves the machine collecting with an empty
    accumulator; no run of frames without a DataPacket of the responder
    ends the loop after it; and the first such DataPacket, arriving after
    frames that are ignored, ends it with that packet's 7-byte chunk. *)
Theorem zero_length_announcement (st : rstate) (cf : bytes)
    (can_id dlc : Z) (data : bytes) :
  unpack bo cf = Some (can_id, dlc, data) ->
  is_control can_id data = true -> byte_at data 1 = 0 ->
  step st can_id dlc data = (mk_rstate [] 0 (byte_at data 2) true 0, false) /\
  (forall us n,
      Forall (no_data bo) us ->
      (forall m st', bam_loop bo st (cf :: us) n <> Broke m st') /\
      (forall st', bam_loop bo st (cf :: us) n = Blocked st' ->
                   collecting st' = true)) /\
  (forall us cfd rest idd dlcd seq chunk,
      Forall (ignored bo) us ->
      unpack bo cfd = Some (idd, dlcd, seq :: chunk) ->
      pgn_of idd = 0xEBFF -> src_of idd = expected_src ->
      bam_loop bo st (cf :: us ++ cfd :: rest) 0
      = Broke (length us + 2) (mk_rstate chunk 0 (byte_at data 2) true 1) /\
      receive_bam_vin bo (cf :: us ++ cfd :: rest)
      = Ret (decode_ascii_ignore chunk)).
Proof.
  intros U C T.
  assert (S0 : forall s, step s can_id dlc data
                         = (mk_rstate [] 0 (byte_at data 2) true 0, false)).
  { intros s. now rewrite (step_control _ _ _ _ C), T. }
  split; [apply S0|]. split.
  - intros us n Hus.
    rewrite (bam_loop_cons _ _ _ _ _ _ _ U), S0. cbn [fst snd]. split.
    + intros m st'. now apply bam_loop_no_data.
    + intros st' H. eapply bam_loop_collecting; [|exact H]. reflexivity.
  - intros us cfd rest idd dlcd seq chunk Hus Ud Pd Sd.
    pose proof (unpack_data_length _ _ _ _ _ Ud) as Ld. cbn [length] in Ld.
    assert (E : forall s, bam_loop bo s (cf :: us ++ cfd :: rest) 0
                = Broke (length us + 2) (mk_rstate chunk 0 (byte_at data 2) true 1)).
    { intros s. rewrite (bam_loop_cons _ _ _ _ _ _ _ U), S0. cbn [fst snd].
      rewrite (bam_loop_ignored us Hus).
      rewrite (bam_loop_cons _ _ _ _ _ _ _ Ud), step_data by (trivial; lia).
      cbn [fst snd vin_bytes total_length expected_packets received_packets app].
      replace (Z.of_nat (length chunk) >=? 0) with true
        by settle_geb.
      f_equal. lia. }
    split; [apply E|].
    unfold receive_bam_vin. rewrite E, slice_0_17. cbn [vin_bytes].
    now rewrite firstn_all2 by lia.
Qed.

(** ** Sequence numbers and packet counts are never consulted *)

Lemma st_sim_refl (s : rstate) : st_sim s s.
Proof. now repeat split. Qed.

Lemma step_sim_same (s t : rstate) (can_id dlc : Z) (data : bytes) :
  st_sim s t ->
  st_sim (fst (step s can_id dlc data)) (fst (step t can_id dlc data)) /\
  snd (step s can_id dlc data) = snd (step t can_id dlc data).
Proof.
  intros (Hv & Ht & Hc & Hr). unfold step, is_data.
  destruct (is_control can_id data); [split; [apply st_sim_refl | reflexivity]|].
  rewrite Hc.
  destruct ((pgn_of can_id =? 0xEBFF) && collecting t && (src_of can_id =? expected_src)).
  - cbn [fst snd vin_bytes total_length]. rewrite Hv, Ht, Hr.
    split; [|reflexivity]. now repeat split.
  - split; [|reflexivity]. now repeat split.
Qed.

Lemma step_sim_data (s t : rstate) (can_id dlc : Z) (seq1 seq2 : byte) (chunk : bytes) :
  st_sim s t -> pgn_of can_id = 0xEBFF ->
  st_sim (fst (step s can_id dlc (seq1 :: chunk)))
         (fst (step t can_id dlc (seq2 :: chunk))) /\
  snd (step s can_id dlc (seq1 :: chunk)) = snd (step t can_id dlc (seq2 :: chunk)).
Proof.
  intros (Hv & Ht & Hc & Hr) Hp. unfold step.
  rewrite !(data_pgn_not_control _ _ Hp). unfold is_data. rewrite Hc.
  destruct ((pgn_of can_id =? 0xEBFF) && collecting t && (src_of can_id =? expected_src)).
  - unfold slice. cbn [skipn fst snd vin_bytes total_length]. rewrite Hv, Ht, Hr.
    split; [|reflexivity]. now repeat split.
  - split; [|reflexivity]. now repeat split.
Qed.

Lemma step_sim_control (s t : rstate) (can_id dlc : Z) (code tl cnt1 cnt2 : byte)
    (rest : bytes) :
  st_sim s t -> pgn_of can_id = 0xECFF ->
  st_sim (fst (step s can_id dlc (code :: tl :: cnt1 :: rest)))
         (fst (step t can_id dlc (code :: tl :: cnt2 :: rest))) /\
  snd (step s can_id dlc (code :: tl :: cnt1 :: rest))
  = snd (step t can_id dlc (code :: tl :: cnt2 :: rest)).
Proof.
  intros Hst Hp. unfold step.
  assert (E : is_control can_id (code :: tl :: cnt1 :: rest)
              = is_control can_id (code :: tl :: cnt2 :: rest)) by reflexivity.
  rewrite E. destruct (is_control can_id (code :: tl :: cnt2 :: rest)).
  - split; [|reflexivity]. now repeat split.
  - unfold is_data. rewrite Hp. cbn [Z.eqb Pos.eqb andb fst snd].
    split; [exact Hst | reflexivity].
Qed.

Lemma frame_sim_step (cf1 cf2 : bytes) :
  frame_sim bo cf1 cf2 ->
  (unpack bo cf1 = None /\ unpack bo cf2 = None) \/
  (exists id dlc d1 d2,
      unpack bo cf1 = Some (id, dlc, d1) /\ unpack bo cf2 = Some (id, dlc, d2) /\
      forall s t, st_sim s t ->
        st_sim (fst (step s id dlc d1)) (fst (step t id dlc d2)) /\
        snd (step s id dlc d1) = snd (step t id dlc d2)).
Proof.
  intros [cf | cf1' cf2' id dlc q1 q2 chunk U1 U2 P
             | cf1' cf2' id dlc code tl c1 c2 rest U1 U2 P _].
  - destruct (unpack bo cf) as [[[id dlc] d]|] eqn:U; [right | left; tauto].
    exists id, dlc, d, d. repeat split; trivial; now apply step_sim_same.
  - right. exists id, dlc, (q1 :: chunk), (q2 :: chunk).
    repeat split; trivial; now apply step_sim_data.
  - right. exists id, dlc, (code :: tl :: c1 :: rest), (code :: tl :: c2 :: rest).
    repeat split; trivial; now apply step_sim_control.
Qed.

Lemma bam_loop_sim (fs1 fs2 : list bytes) :
  Forall2 (frame_sim bo) fs1 fs2 ->
  forall s t n, st_sim s t ->
    loop_end_sim (bam_loop bo s fs1 n) (bam_loop bo t fs2 n).
Proof.
  induction 1 as [|cf1 cf2 r1 r2 Hf _ IH]; intros s t n Hst; [exact Hst|].
  destruct (frame_sim_step cf1 cf2 Hf)
    as [[U1 U2] | (id & dlc & d1 & d2 & U1 & U2 & Hs)].
  - cbn [bam_loop]. rewrite U1, U2. reflexivity.
  - rewrite (bam_loop_cons _ _ _ _ _ _ _ U1), (bam_loop_cons _ _ _ _ _ _ _ U2).
    destruct (Hs s t Hst) as [Hst' Hb]. rewrite Hb.
    destruct (snd (step t id dlc d2)); [split; trivial | now apply IH].
Qed.

(** C9. Two frame streams that differ only in the sequence-number byte of
    DataPackets and the packet-count byte of ControlPackets are
    indistinguishable: the loop ends after the same number of frames (or
    fails, or keeps waiting, in both), in states that agree on everything
    but [expected_packets], and [receive_bam_vin] has the same outcome and
    returns the same VIN. *)
Theorem vin_independent_of_seq_and_count (fs1 fs2 : list bytes) :
  Forall2 (frame_sim bo) fs1 fs2 ->
  loop_end_sim (bam_loop bo init_rstate fs1 0) (bam_loop bo init_rstate fs2 0) /\
  receive_bam_vin bo fs1 = receive_bam_vin bo fs2.
Proof.
  intros H.
  pose proof (bam_loop_sim fs1 fs2 H init_rstate init_rstate 0%nat
                (st_sim_refl _)) as L.
  split; [exact L|]. unfold receive_bam_vin.
  destruct (bam_loop bo init_rstate fs1 0) as [n s|n|s],
           (bam_loop bo init_rstate fs2 0) as [m t|m|t];
    cbn [loop_end_sim] in L; try contradiction; try reflexivity.
  destruct L as [_ (Hv & _)]. now rewrite Hv.
Qed.

End Reassembler.

(** ** The Reassembler on concrete frame streams *)

Lemma unmatched_frame_preserves_state_witness :
  let st := mk_rstate (bytes_lit "1HGCM82") 17 3 true 1 in
  let data := byte_of_Z 2 :: bytes_lit "XXXXXXX" in
  let cf := frame_of LittleEndian 0x1CEBFF17 8 data in
  unpack LittleEndian cf = Some (0x1CEBFF17, 8, data) /\
  unmatched 0x1CEBFF17 data /\
  step st 0x1CEBFF17 8 data = (st, false) /\
  bam_loop LittleEndian st [cf] 0 = bam_loop LittleEndian st [] 1.
Proof.
  intros st data cf.
  assert (Hu : unpack LittleEndian cf = Some (0x1CEBFF17, 8, data)) by reflexivity.
  assert (Hm : unmatched 0x1CEBFF17 data) by (left; vm_compute; discriminate).
  split; [exact Hu|]. split; [exact Hm|].
  exact (unmatched_frame_preserves_state LittleEndian st cf _ _ _ [] 0%nat Hu Hm).
Defined.

Lemma complete_vin_first_17_witness :
  let frames := [bam_control 17 3; bam_data 1 "1HGCM82"; bam_data 2 "633A123";
                 bam_data 3 "456"] in
  exists st,
    bam_loop LittleEndian init_rstate frames 0 = Broke 4 st /\
    receive_bam_vin LittleEndian frames
    = Ret (decode_ascii_ignore (firstn 17 (vin_bytes st))) /\
    total_length st <= Z.of_nat (length (vin_bytes st)).
Proof.
  intros frames. eexists. split; [reflexivity|].
  pose proof (complete_vin_first_17 LittleEndian frames 4 _ eq_refl) as [R [L _]].
  split; [exact R | exact L].
Defined.

(** C1, as stated, fails: with [total_length = 10] the loop ends after two
    DataPackets with 14 bytes accumulated and all 14 are returned, not the
    first 10. *)
Lemma truncation_to_total_length_fails :
  ~ (forall bo frames n st,
        bam_loop bo init_rstate frames 0 = Broke n st ->
        receive_bam_vin bo frames
        = Ret (decode_ascii_ignore
                 (firstn (Z.to_nat (Z.min (total_length st) 17)) (vin_bytes st)))).
Proof.
  intros H.
  specialize (H LittleEndian
                [bam_control 10 2; bam_data 1 "1HGCM82"; bam_data 2 "633A123"]
                3%nat _ eq_refl).
  vm_compute in H. discriminate H.
Qed.

Lemma reassembly_17_bytes_3_packets_witness :
  receive_bam_vin LittleEndian
    [bam_control 17 3; bam_data 1 "1HGCM82"; bam_data 2 "633A123"; bam_data 3 "456"]
  = Ret (str_lit "1HGCM82633A123456").
Proof.
  refine (proj1 (proj2 (proj2
    (reassembly_17_bytes_3_packets LittleEndian
       (bam_control 17 3) (bam_data 1 "1HGCM82") (bam_data 2 "633A123")
       (bam_data 3 "456") []
       0x1CECFF00 0x1CEBFF00 0x1CEBFF00 0x1CEBFF00 8 8 8 8
       (bytes_of_ints [0x20; 17; 3; 0xFF; 0xFF; 0xEC; 0xFE; 0x00])
       (byte_of_Z 1) (byte_of_Z 2) (byte_of_Z 3)
       (bytes_lit "1HGCM82") (bytes_lit "633A123") (bytes_lit "456")
       (repeat x00 4)
       _ _ _ _ _ _ _ _ _ _ _ _ _ _ _)))); try reflexivity.
  repeat constructor.
Defined.

Lemma zero_length_announcement_witness :
  let data := bytes_of_ints [0x20; 0; 1; 0xFF; 0xFF; 0xEC; 0xFE; 0x00] in
  unpack LittleEndian (bam_control 0 1) = Some (0x1CECFF00, 8, data) /\
  is_control 0x1CECFF00 data = true /\ byte_at data 1 = 0 /\
  step init_rstate 0x1CECFF00 8 data = (mk_rstate [] 0 1 true 0, false).
Proof.
  intros data. split; [reflexivity|]. split; [reflexivity|]. split; [reflexivity|].
  exact (proj1 (zero_length_announcement LittleEndian init_rstate (bam_control 0 1)
                  0x1CECFF00 8 data eq_refl eq_refl eq_refl)).
Defined.

Lemma vin_independent_of_seq_and_count_witness :
  let fs1 := [bam_control 17 3; bam_data 1 "1HGCM82"; bam_data 2 "633A123";
              bam_data 3 "456"] in
  let fs2 := [bam_control 17 9; bam_data 7 "1HGCM82"; bam_data 7 "633A123";
              bam_data 0 "456"] in
  Forall2 (frame_sim LittleEndian) fs1 fs2 /\
  receive_bam_vin LittleEndian fs1 = receive_bam_vin LittleEndian fs2.
Proof.
  intros fs1 fs2.
  assert (H : Forall2 (frame_sim LittleEndian) fs1 fs2).
  { repeat constructor.
    - eapply sim_control; reflexivity.
    - eapply sim_data; reflexivity.
    - eapply sim_data; reflexivity.
    - eapply sim_data; reflexivity. }
  split; [exact H|].
  exact (proj2 (vin_independent_of_seq_and_count LittleEndian fs1 fs2 H)).
Defined.

(** ** The codecs on ASCII text *)

Lemma in_range_iff (lo hi : Z) (b : byte) :
  in_range lo hi b = true <-> lo <= Z_of_byte b <= hi.
Proof. unfold in_range. rewrite andb_true_iff, !Z.leb_le. tauto. Qed.

(** The first character that [utf8_decode] yields is either the first byte
    itself, an ASCII one, or a code point outside ASCII. *)
Lemma utf8_decode_head (b0 : byte) (r0 : bytes) (s : pystr) :
  utf8_decode (b0 :: r0) = Some s ->
  exists c s', s = c :: s' /\
    ((c = Z_of_byte b0 /\ c < 128 /\ utf8_decode r0 = Some s') \/ 128 <= c).
Proof.
  cbn [utf8_decode]. pose proof (Z_of_byte_range b0) as R0.
  destruct (Z.ltb_spec (Z_of_byte b0) 0x80) as [H1|H1].
  { destruct (utf8_decode r0) as [s'|]; [|discriminate].
    intros H. inversion H. exists (Z_of_byte b0), s'. tauto. }
  destruct (Z.ltb_spec (Z_of_byte b0) 0xC2) as [H2|H2]; [discriminate|].
  destruct (Z.ltb_spec (Z_of_byte b0) 0xE0) as [H3|H3].
  { destruct r0 as [|b1 r1]; [discriminate|].
    destruct (in_range 0x80 0xBF b1) eqn:I1; [|discriminate].
    apply in_range_iff in I1. unfold cont.
    destruct (utf8_decode r1) as [s'|]; [|discriminate].
    intros H. inversion H. eexists _, s'. split; [reflexivity|]. right. lia. }
  destruct (Z.ltb_spec (Z_of_byte b0) 0xF0) as [H4|H4].
  { destruct r0 as [|b1 [|b2 r2]]; try discriminate.
    destruct (in_range _ _ b1) eqn:I1; [|discriminate].
    destruct (in_range 0x80 0xBF b2) eqn:I2; [|discriminate].
    apply in_range_iff in I1, I2. unfold cont. cbn [andb].
    destruct (utf8_decode r2) as [s'|]; [|discriminate].
    intros H. inversion H. eexists _, s'. split; [reflexivity|]. right.
    destruct (Z.eqb_spec (Z_of_byte b0) 0xE0); lia. }
  destruct (Z.ltb_spec (Z_of_byte b0) 0xF5) as [H5|H5]; [|discriminate].
  destruct r0 as [|b1 [|b2 [|b3 r3]]]; try discriminate.
  destruct (in_range _ _ b1) eqn:I1; [|discriminate].
  destruct (in_range 0x80 0xBF b2) eqn:I2; [|discriminate].
  destruct (in_range 0x80 0xBF b3) eqn:I3; [|discriminate].
  apply in_range_iff in I1, I2, I3. unfold cont. cbn [andb].
  destruct (utf8_decode r3) as [s'|]; [|discriminate].
  intros H. inversion H. eexists _, s'. split; [reflexivity|]. right.
  destruct (Z.eqb_spec (Z_of_byte b0) 0xF0); lia.
Qed.

(** Only the ASCII bytes themselves decode to an ASCII text. *)
Lemma utf8_decode_ascii_inv (s : pystr) :
  is_ascii s -> forall b, utf8_decode b = Some s -> b = map byte_of_Z s.
Proof.
  induction 1 as [|c s Hc _ IH]; intros [|b0 r0] H.
  - reflexivity.
  - apply utf8_decode_head in H. destruct H as (c & s' & E & _). discriminate.
  - discriminate.
  - apply utf8_decode_head in H. destruct H as (c' & s' & E & [(Ec & _ & Hr) | Hge]).
    + inversion E; subst. cbn [map]. rewrite byte_of_Z_of_byte.
      f_equal. now apply IH.
    + inversion E; subst. lia.
Qed.

Lemma utf8_encode_ascii (s : pystr) :
  is_ascii s -> utf8_encode s = Some (map byte_of_Z s).
Proof.
  induction 1 as [|c s Hc _ IH]; [reflexivity|].
  cbn [utf8_encode map]. rewrite IH. unfold utf8_encode_cp.
  destruct (Z.ltb_spec c 0); [lia|].
  destruct (Z.ltb_spec c 0x80); [reflexivity | lia].
Qed.

Lemma utf8_decode_ascii (s : pystr) :
  is_ascii s -> utf8_decode (map byte_of_Z s) = Some s.
Proof.
  induction 1 as [|c s Hc _ IH]; [reflexivity|].
  cbn [map utf8_decode]. rewrite Z_of_byte_of_Z by lia.
  destruct (Z.ltb_spec c 0x80); [|lia]. now rewrite IH.
Qed.

Lemma decode_ascii_ignore_is_ascii (b : bytes) : is_ascii (decode_ascii_ignore b).
Proof.
  unfold decode_ascii_ignore, is_ascii.
  induction b as [|x b IH]; [constructor|].
  cbn [filter]. destruct (Z.ltb_spec (Z_of_byte x) 128); [|exact IH].
  cbn [map]. constructor; [|exact IH].
  pose proof (Z_of_byte_range x). lia.
Qed.

Lemma decode_ascii_ignore_length (b : bytes) :
  (length (decode_ascii_ignore b) <= length b)%nat.
Proof.
  unfold decode_ascii_ignore. rewrite length_map. apply filter_length_le.
Qed.

(** What [receive_bam_vin] returns is ASCII text of at most 17 characters. *)
Lemma receive_bam_vin_shape (bo : byteorder) (frames : list bytes) (vin : pystr) :
  receive_bam_vin bo frames = Ret vin -> is_ascii vin /\ (length vin <= 17)%nat.
Proof.
  unfold receive_bam_vin.
  destruct (bam_loop bo init_rstate frames 0) as [n st| |]; try discriminate.
  intros H. inversion H; subst. split; [apply decode_ascii_ignore_is_ascii|].
  etransitivity; [apply decode_ascii_ignore_length|].
  rewrite slice_0_17. apply firstn_le_length.
Qed.

Lemma is_ascii_firstn (n : nat) (s : pystr) : is_ascii s -> is_ascii (firstn n s).
Proof.
  unfold is_ascii. intros H. revert n.
  induction H as [|c s Hc _ IH]; intros [|n]; cbn [firstn]; auto.
Qed.

Lemma str_eqb_eq (a b : pystr) : str_eqb a b = true <-> a = b.
Proof.
  unfold str_eqb. destruct (list_eq_dec Z.eq_dec a b); split; congruence.
Qed.

Lemma VIN_REQUEST_decode (b : bytes) :
  utf8_decode b = Some VIN_REQUEST <-> b = bytes_lit "VIN_REQUEST".
Proof.
  split.
  - intros H. apply utf8_decode_ascii_inv in H; [exact H|].
    unfold is_ascii. repeat constructor; vm_compute; congruence.
  - intros ->. reflexivity.
Qed.

(** ** The tamper rule *)

Lemma TamperRule_unfold (v : pystr) :
  TamperRule v = firstn 10 v ++ str_lit "HACKED123".
Proof. reflexivity. Qed.

Lemma TamperRule_length (v : pystr) :
  length (TamperRule v) = (Nat.min 10 (length v) + 9)%nat.
Proof. rewrite TamperRule_unfold, length_app, length_firstn. reflexivity. Qed.

Lemma TamperRule_changes_short (v : pystr) :
  length v <> 19%nat -> TamperRule v <> v.
Proof.
  intros H E. apply (f_equal (@length Z)) in E.
  rewrite TamperRule_length in E. lia.
Qed.

(** C2, as amended.  For a string [v] of at least 10 characters the rule
    yields [v[0:10] + "HACKED123"], which has 19 characters; the result
    differs from [v] unless [v[10:]] is the marker itself, so it differs
    from every [v] that is not 19 characters long. *)
Theorem tamper_rule_marker (v : pystr) :
  (10 <= length v)%nat ->
  TamperRule v = firstn 10 v ++ str_lit "HACKED123" /\
  length (TamperRule v) = 19%nat /\
  (TamperRule v = v <-> skipn 10 v = str_lit "HACKED123") /\
  (length v <> 19%nat -> TamperRule v <> v).
Proof.
  intros H. split; [reflexivity|]. split; [rewrite TamperRule_length; lia|].
  split; [|apply TamperRule_changes_short].
  rewrite TamperRule_unfold. split.
  - intros E. rewrite <- (firstn_skipn 10 v) in E at 2.
    apply app_inv_head in E. now symmetry.
  - intros E. rewrite <- E. apply firstn_skipn.
Qed.

Lemma tamper_rule_marker_witness :
  (10 <= length (str_lit "1HGCM82633A123456"))%nat /\
  TamperRule (str_lit "1HGCM82633A123456") = str_lit "1HGCM82633HACKED123" /\
  TamperRule (str_lit "1HGCM82633A123456") <> str_lit "1HGCM82633A123456".
Proof.
  assert (H : (10 <= length (str_lit "1HGCM82633A123456"))%nat) by (simpl; lia).
  split; [exact H|].
  pose proof (tamper_rule_marker (str_lit "1HGCM82633A123456") H) as (E & _ & _ & N).
  split; [exact E|]. apply N. simpl. lia.
Defined.

(** C2, as stated, fails: a 19-character string that already ends in the
    marker is mapped to itself. *)
Lemma tamper_rule_fixed_point :
  ~ (forall v : pystr,
        (10 <= length v)%nat ->
        TamperRule v = firstn 10 v ++ str_lit "HACKED123" /\ TamperRule v <> v).
Proof.
  intros H.
  destruct (H (str_lit "1HGCM82633HACKED123")) as [_ N]; [simpl; lia|].
  apply N. reflexivity.
Qed.

(** ** The services *)

(** Runs the sequencing of effects once the inputs of a step are known. *)
Ltac run_io := cbn [or_raise ret bind emit lift_result with_conn app].

Lemma actualdll_on_request (bo : byteorder) (mode : bool) (frames : list bytes)
    (vin : pystr) :
  receive_bam_vin bo frames = Ret vin ->
  exists frame,
    vin_request_frame bo = Some frame /\
    actualdll_socket_server bo mode (bytes_lit "VIN_REQUEST") frames
    = ([TcpBind (PORT mode); TcpAccept; CanOpen; CanSend frame; CanClose;
        ConnSendall (map byte_of_Z vin); ConnClose; TcpClose], Ret tt).
Proof.
  intros R. destruct (receive_bam_vin_shape _ _ _ R) as [A _].
  destruct (vin_request_frame_some bo) as (frame & F).
  exists frame. split; [exact F|].
  unfold actualdll_socket_server, get_vin_from_can, send_vin_request.
  rewrite (proj2 (VIN_REQUEST_decode _) eq_refl), F, R.
  run_io.
  rewrite (proj2 (str_eqb_eq _ _) eq_refl).
  run_io.
  rewrite (utf8_encode_ascii _ A). reflexivity.
Qed.

Lemma shimdll_on_request (fwd_raw : bytes) (real_vin : pystr) (out : bytes) :
  utf8_decode fwd_raw = Some real_vin ->
  utf8_encode (TamperRule real_vin) = Some out ->
  shimdll_socket_server (bytes_lit "VIN_REQUEST") fwd_raw
  = ([TcpBind 1337; TcpAccept; FwdConnect 1555;
      FwdSendall (bytes_lit "VIN_REQUEST"); ConnSendall out; FwdClose;
      ConnClose; TcpClose], Ret tt).
Proof.
  intros D E. unfold shimdll_socket_server.
  rewrite (proj2 (VIN_REQUEST_decode _) eq_refl), D.
  run_io.
  rewrite (proj2 (str_eqb_eq _ _) eq_refl).
  run_io. rewrite E. reflexivity.
Qed.

(** C6. The shim in front of the backend: when the backend's retrieval has
    produced [vin] and the shim receives the request token, the shim sends
    that same token to port 1555, and the only bytes it writes back to its
    caller are the encoding of [TamperRule vin], which is never what the
    backend answered.  (The backend's answer is taken to arrive whole in
    the shim's one [recv].) *)
Theorem shim_returns_tampered_vin (bo : byteorder) (frames : list bytes)
    (vin : pystr) :
  receive_bam_vin bo frames = Ret vin ->
  let token := bytes_lit "VIN_REQUEST" in
  let backend := actualdll_socket_server bo true token frames in
  let answer := response_of (fst backend) in
  let shim := shimdll_socket_server token answer in
  exists out,
    utf8_decode answer = Some vin /\
    utf8_encode (TamperRule vin) = Some out /\
    shim = ([TcpBind 1337; TcpAccept; FwdConnect 1555; FwdSendall token;
             ConnSendall out; FwdClose; ConnClose; TcpClose], Ret tt) /\
    response_of (fst shim) = out /\
    utf8_decode out = Some (TamperRule vin) /\
    TamperRule vin <> vin /\
    out <> answer.
Proof.
  intros R token backend answer shim.
  destruct (receive_bam_vin_shape _ _ _ R) as [A L].
  destruct (actualdll_on_request bo true frames vin R) as (frame & _ & B).
  assert (Ea : answer = map byte_of_Z vin).
  { unfold answer, backend, token. rewrite B. cbn [fst response_of].
    apply app_nil_r. }
  assert (At : is_ascii (TamperRule vin)).
  { rewrite TamperRule_unfold. apply Forall_app. split.
    - now apply is_ascii_firstn.
    - repeat constructor; vm_compute; congruence. }
  assert (D : utf8_decode answer = Some vin)
    by (rewrite Ea; now apply utf8_decode_ascii).
  assert (N : TamperRule vin <> vin) by (apply TamperRule_changes_short; lia).
  exists (map byte_of_Z (TamperRule vin)).
  pose proof (utf8_encode_ascii _ At) as E.
  pose proof (shimdll_on_request answer vin _ D E) as S.
  fold token in S. fold shim in S.
  split; [exact D|]. split; [exact E|]. split; [exact S|].
  split; [rewrite S; cbn [fst response_of]; apply app_nil_r|].
  split; [now apply utf8_decode_ascii|]. split; [exact N|].
  intros Eo. apply N.
  pose proof (utf8_decode_ascii _ At) as D'. rewrite Eo, D in D'.
  congruence.
Qed.

Lemma shim_returns_tampered_vin_witness :
  let frames := [bam_control 17 3; bam_data 1 "1HGCM82"; bam_data 2 "633A123";
                 bam_data 3 "456"] in
  receive_bam_vin LittleEndian frames = Ret (str_lit "1HGCM82633A123456") /\
  response_of (fst (shimdll_socket_server (bytes_lit "VIN_REQUEST")
    (response_of (fst (actualdll_socket_server LittleEndian true
                         (bytes_lit "VIN_REQUEST") frames)))))
  = bytes_lit "1HGCM82633HACKED123".
Proof.
  intros frames.
  assert (R : receive_bam_vin LittleEndian frames = Ret (str_lit "1HGCM82633A123456"))
    by reflexivity.
  split; [exact R|].
  destruct (shim_returns_tampered_vin LittleEndian frames _ R)
    as (out & _ & E & _ & O & _).
  rewrite O. vm_compute in E. now inversion E.
Defined.

Lemma mismatched_token (req_raw : bytes) :
  req_raw <> bytes_lit "VIN_REQUEST" ->
  match utf8_decode req_raw with
  | Some req => str_eqb req VIN_REQUEST = false
  | None => True
  end.
Proof.
  intros H. destruct (utf8_decode req_raw) as [req|] eqn:D; [|exact I].
  destruct (str_eqb req VIN_REQUEST) eqn:E; [|reflexivity].
  apply str_eqb_eq in E. subst req. apply VIN_REQUEST_decode in D. contradiction.
Qed.

(** C7. A session whose request is not the token [VIN_REQUEST]: both
    services close the session having written nothing to it, without
    touching the CAN bus or connecting to the backend.  The service then
    returns; when the request is not even valid UTF-8 it ends instead with
    [UnicodeDecodeError] inside the service, after the session is closed,
    and the peer sees the same silent close. *)
Theorem mismatched_token_is_silent (bo : byteorder) (mode : bool)
    (req_raw : bytes) (frames : list bytes) (fwd_raw : bytes) :
  req_raw <> bytes_lit "VIN_REQUEST" ->
  let ended := match utf8_decode req_raw with
               | Some _ => ([TcpClose], Ret tt)
               | None => ([], Raise UnicodeDecodeError)
               end in
  let backend := actualdll_socket_server bo mode req_raw frames in
  let shim := shimdll_socket_server req_raw fwd_raw in
  backend = ([TcpBind (PORT mode); TcpAccept; ConnClose] ++ fst ended, snd ended) /\
  shim = ([TcpBind 1337; TcpAccept; ConnClose] ++ fst ended, snd ended) /\
  (forall t, t = fst backend \/ t = fst shim ->
     response_of t = [] /\
     existsb is_send_event t = false /\
     existsb is_bus_event t = false /\
     existsb is_forward_event t = false /\
     In ConnClose t).
Proof.
  intros H ended backend shim.
  pose proof (mismatched_token req_raw H) as M.
  assert (B : backend
              = ([TcpBind (PORT mode); TcpAccept; ConnClose] ++ fst ended, snd ended)).
  { unfold backend, ended, actualdll_socket_server.
    destruct (utf8_decode req_raw) as [req|]; [|reflexivity].
    run_io. rewrite M. reflexivity. }
  assert (S : shim
              = ([TcpBind 1337; TcpAccept; ConnClose] ++ fst ended, snd ended)).
  { unfold shim, ended, shimdll_socket_server.
    destruct (utf8_decode req_raw) as [req|]; [|reflexivity].
    run_io. rewrite M. reflexivity. }
  split; [exact B|]. split; [exact S|].
  intros t [-> | ->]; [rewrite B | rewrite S]; unfold ended;
    destruct (utf8_decode req_raw); cbn; tauto.
Qed.

Lemma mismatched_token_is_silent_witness :
  bytes_lit "GET_VIN" <> bytes_lit "VIN_REQUEST" /\
  actualdll_socket_server LittleEndian false (bytes_lit "GET_VIN")
    [bam_control 17 3; bam_data 1 "1HGCM82"]
  = ([TcpBind 1337; TcpAccept; ConnClose; TcpClose], Ret tt) /\
  shimdll_socket_server (bytes_lit "GET_VIN") (bytes_lit "1HGCM82633A123456")
  = ([TcpBind 1337; TcpAccept; ConnClose; TcpClose], Ret tt).
Proof.
  assert (H : bytes_lit "GET_VIN" <> bytes_lit "VIN_REQUEST")
    by (vm_compute; discriminate).
  split; [exact H|].
  destruct (mismatched_token_is_silent LittleEndian false (bytes_lit "GET_VIN")
              [bam_control 17 3; bam_data 1 "1HGCM82"]
              (bytes_lit "1HGCM82633A123456") H) as (B & S & _).
  split; [exact B | exact S].
Defined.

(** * Further properties of the code *)

(** ** The frame layout *)

Lemma le_int_bound (a b c d : byte) : 0 <= le_int [a; b; c; d] < 2 ^ 32.
Proof.
  unfold le_int. cbn [fold_right].
  pose proof (Z_of_byte_range a). pose proof (Z_of_byte_range b).
  pose proof (Z_of_byte_range c). pose proof (Z_of_byte_range d).
  change (2 ^ 32) with 4294967296. lia.
Qed.

Lemma le_bytes4_le_int (a b c d : byte) : le_bytes4 (le_int [a; b; c; d]) = [a; b; c; d].
Proof.
  unfold le_int, le_bytes4. cbn [fold_right].
  pose proof (Z_of_byte_range a) as Ha. pose proof (Z_of_byte_range b) as Hb.
  pose proof (Z_of_byte_range c) as Hc. pose proof (Z_of_byte_range d) as Hd.
  rewrite !land_255, !Z.shiftr_div_pow2 by lia.
  change (2 ^ 8) with 256. change (2 ^ 16) with 65536. change (2 ^ 24) with 16777216.
  set (x := Z_of_byte a + 256 * (Z_of_byte b + 256 * (Z_of_byte c + 256 * (Z_of_byte d + 256 * 0)))).
  assert (E0 : x mod 256 = Z_of_byte a) by (subst x; Z.div_mod_to_equations; lia).
  assert (E1 : (x / 256) mod 256 = Z_of_byte b) by (subst x; Z.div_mod_to_equations; lia).
  assert (E2 : (x / 65536) mod 256 = Z_of_byte c) by (subst x; Z.div_mod_to_equations; lia).
  assert (E3 : (x / 16777216) mod 256 = Z_of_byte d) by (subst x; Z.div_mod_to_equations; lia).
  now rewrite E0, E1, E2, E3, !byte_of_Z_of_byte.
Qed.

Lemma unpack_L_bound (bo : byteorder) (a b c d : byte) :
  0 <= unpack_L bo [a; b; c; d] < 2 ^ 32.
Proof. destruct bo; apply le_int_bound. Qed.

Lemma pack_L_unpack_L (bo : byteorder) (a b c d : byte) :
  pack_L bo (unpack_L bo [a; b; c; d]) = [a; b; c; d].
Proof.
  destruct bo; unfold pack_L, unpack_L.
  - apply le_bytes4_le_int.
  - cbn [rev app]. now rewrite le_bytes4_le_int.
Qed.

Lemma pack_in_range (bo : byteorder) (can_id dlc : Z) (data : bytes) :
  0 <= can_id < 2 ^ 32 -> 0 <= dlc < 256 ->
  pack bo can_id dlc data
  = Some (pack_L bo can_id ++ [byte_of_Z dlc] ++ repeat x00 3 ++ pack_8s data).
Proof.
  intros Hid Hdlc. unfold pack.
  replace ((0 <=? can_id) && (can_id <? 2 ^ 32) && (0 <=? dlc) && (dlc <? 256))
    with true
    by (symmetry; rewrite !andb_true_iff, !Z.leb_le, !Z.ltb_lt; lia).
  reflexivity.
Qed.

(** X1. [struct.pack] accepts a payload of any length and a length field up
    to 255: a payload longer than 8 bytes is cut to its first 8 bytes
    without an error, a shorter one is padded, and [struct.unpack] gives the
    identifier, the length field and those 8 bytes back. *)
Theorem pack_cuts_payload_to_8 (bo : byteorder) (can_id dlc : Z) (data : bytes) :
  0 <= can_id < 2 ^ 32 -> 0 <= dlc < 256 ->
  exists cf,
    pack bo can_id dlc data = Some cf /\
    length cf = 16%nat /\
    unpack bo cf = Some (can_id, dlc, ljust (firstn 8 data) 8) /\
    ((8 <= length data)%nat ->
     unpack bo cf = Some (can_id, dlc, firstn 8 data)).
Proof.
  intros Hid Hdlc. rewrite (pack_in_range bo _ _ data Hid Hdlc).
  eexists. split; [reflexivity|].
  assert (U : unpack bo (pack_L bo can_id ++ [byte_of_Z dlc] ++ repeat x00 3
                         ++ pack_8s data)
              = Some (can_id, dlc, ljust (firstn 8 data) 8)).
  { cbn [repeat]. rewrite unpack_layout.
    - now rewrite unpack_L_pack_L, Z_of_byte_of_Z by lia.
    - apply pack_L_length.
    - apply pack_8s_length. }
  split; [|split; [exact U|]].
  - rewrite !length_app, pack_L_length, pack_8s_length. reflexivity.
  - intros L. rewrite U. unfold ljust.
    rewrite length_firstn, Nat.min_l by lia. cbn [Nat.sub repeat].
    now rewrite app_nil_r.
Qed.

Lemma pack_cuts_payload_to_8_witness :
  exists cf,
    pack BigEndian 0x98EBFF00 200 (bytes_lit "0123456789") = Some cf /\
    unpack BigEndian cf = Some (0x98EBFF00, 200, bytes_lit "01234567").
Proof.
  destruct (pack_cuts_payload_to_8 BigEndian 0x98EBFF00 200 (bytes_lit "0123456789"))
    as (cf & P & _ & _ & U); [lia | lia |].
  exists cf. split; [exact P|]. apply U. simpl. lia.
Defined.

(** X2. [struct.unpack] fails exactly on buffers that are not 16 bytes
    long, and on a 16-byte buffer it yields an identifier below 2^32, a
    length field below 256 (not limited to 8) and a payload of exactly 8
    bytes. *)
Theorem unpack_needs_16_bytes (bo : byteorder) (cf : bytes) :
  (unpack bo cf = None <-> length cf <> 16%nat) /\
  (forall can_id dlc data,
      unpack bo cf = Some (can_id, dlc, data) ->
      length cf = 16%nat /\ 0 <= can_id < 2 ^ 32 /\ 0 <= dlc < 256 /\
      length data = 8%nat).
Proof.
  split.
  - unfold unpack. destruct (Nat.eqb_spec (length cf) 16) as [E|E].
    + split; [discriminate | congruence].
    + tauto.
  - intros can_id dlc data U.
    pose proof (unpack_data_length _ _ _ _ _ U) as L.
    unfold unpack in U. destruct (Nat.eqb_spec (length cf) 16) as [E|E]; [|discriminate].
    inversion U; subst. split; [exact E|]. split; [|split; [|exact L]].
    + do 5 (destruct cf as [|? cf]; try discriminate).
      cbn [firstn]. apply unpack_L_bound.
    + apply Z_of_byte_range.
Qed.

(** X3. Packing what [struct.unpack] returned rebuilds the frame with its
    three pad bytes set to zero; a frame whose pad bytes are zero is
    rebuilt as it was. *)
Theorem pack_after_unpack (bo : byteorder) (cf : bytes) (can_id dlc : Z)
    (data : bytes) :
  unpack bo cf = Some (can_id, dlc, data) ->
  pack bo can_id dlc data = Some (firstn 5 cf ++ repeat x00 3 ++ skipn 8 cf) /\
  (slice cf 5 8 = repeat x00 3 -> pack bo can_id dlc data = Some cf).
Proof.
  intros U. unfold unpack in U.
  destruct (Nat.eqb_spec (length cf) 16) as [E|E]; [|discriminate].
  do 17 (destruct cf as [|? cf]; try discriminate).
  inversion U; subst. clear U E.
  unfold byte_at, slice. cbn [firstn skipn Nat.sub nth repeat app].
  rewrite pack_in_range by (apply unpack_L_bound || apply Z_of_byte_range).
  rewrite pack_L_unpack_L, byte_of_Z_of_byte.
  split; [reflexivity|]. intros P. inversion P; subst. reflexivity.
Qed.

Lemma pack_after_unpack_witness :
  unpack LittleEndian (bam_data 3 "456")
  = Some (0x1CEBFF00, 8, byte_of_Z 3 :: bytes_lit "456" ++ repeat x00 4) /\
  pack LittleEndian 0x1CEBFF00 8 (byte_of_Z 3 :: bytes_lit "456" ++ repeat x00 4)
  = Some (bam_data 3 "456").
Proof.
  assert (U : unpack LittleEndian (bam_data 3 "456")
              = Some (0x1CEBFF00, 8, byte_of_Z 3 :: bytes_lit "456" ++ repeat x00 4))
    by reflexivity.
  split; [exact U|].
  apply (proj2 (pack_after_unpack LittleEndian _ _ _ _ U)). reflexivity.
Defined.

(** ** The receive loop on longer streams *)

Section LoopComposition.

Variable bo : byteorder.

Lemma receive_bam_vin_end (frames : list bytes) :
  receive_bam_vin bo frames = vin_of_end (bam_loop bo init_rstate frames 0).
Proof. reflexivity. Qed.

Lemma vin_of_end_shift (k : nat) (e : loop_end) :
  vin_of_end (shift_end k e) = vin_of_end e.
Proof. now destruct e. Qed.

Lemma bam_loop_shift (frames : list bytes) :
  forall st n k,
    bam_loop bo st frames (k + n) = shift_end k (bam_loop bo st frames n).
Proof.
  induction frames as [|cf rest IH]; intros st n k; [reflexivity|].
  cbn [bam_loop]. destruct (unpack bo cf) as [[[can_id dlc] data]|]; [|reflexivity].
  destruct (step st can_id dlc data) as [st1 [|]].
  - cbn [shift_end]. now rewrite Nat.add_succ_r.
  - rewrite <- IH. now rewrite Nat.add_succ_r.
Qed.

Lemma bam_loop_app (pre : list bytes) :
  forall st rest n,
    bam_loop bo st (pre ++ rest) n
    = match bam_loop bo st pre n with
      | Blocked st1 => bam_loop bo st1 rest (length pre + n)
      | e => e
      end.
Proof.
  induction pre as [|cf pre IH]; intros st rest n; [reflexivity|].
  cbn [app bam_loop length].
  destruct (unpack bo cf) as [[[can_id dlc] data]|]; [|reflexivity].
  destruct (step st can_id dlc data) as [st1 [|]]; [reflexivity|].
  rewrite IH. destruct (bam_loop bo st1 pre (S n)); try reflexivity.
  now rewrite Nat.add_succ_r.
Qed.

(** X4. Once the call has returned or raised on the frames delivered so
    far, frames delivered later change nothing: they are not read. *)
Theorem later_frames_not_read (frames more : list bytes) :
  receive_bam_vin bo frames <> Hang ->
  receive_bam_vin bo (frames ++ more) = receive_bam_vin bo frames /\
  bam_loop bo init_rstate (frames ++ more) 0 = bam_loop bo init_rstate frames 0.
Proof.
  rewrite !receive_bam_vin_end, bam_loop_app.
  destruct (bam_loop bo init_rstate frames 0); cbn [vin_of_end]; intros H;
    [split; reflexivity | split; reflexivity | contradiction].
Qed.

(** X5. A matching ControlPacket starts the reassembly afresh: whatever the
    frames before it left in the accumulator and the counters is thrown
    away, and the outcome is the one of the stream that starts at that
    ControlPacket. *)
Theorem control_packet_restarts (pre : list bytes) (st1 : rstate) (cf : bytes)
    (rest : list bytes) (can_id dlc : Z) (data : bytes) :
  bam_loop bo init_rstate pre 0 = Blocked st1 ->
  unpack bo cf = Some (can_id, dlc, data) ->
  is_control can_id data = true ->
  receive_bam_vin bo (pre ++ cf :: rest) = receive_bam_vin bo (cf :: rest) /\
  bam_loop bo init_rstate (pre ++ cf :: rest) 0
  = shift_end (length pre) (bam_loop bo init_rstate (cf :: rest) 0).
Proof.
  intros P U C.
  assert (E : bam_loop bo init_rstate (pre ++ cf :: rest) 0
              = shift_end (length pre) (bam_loop bo init_rstate (cf :: rest) 0)).
  { rewrite bam_loop_app, P. cbn [bam_loop]. rewrite U.
    rewrite !(step_control _ _ _ _ C). cbn iota.
    rewrite <- bam_loop_shift. f_equal. lia. }
  split; [|exact E].
  now rewrite !receive_bam_vin_end, E, vin_of_end_shift.
Qed.

Lemma step_no_control_idle (st : rstate) (can_id dlc : Z) (data : bytes) :
  collecting st = false -> is_control can_id data = false ->
  step st can_id dlc data = (st, false).
Proof.
  intros Hc Hn. unfold step, is_data. rewrite Hn, Hc.
  now rewrite andb_false_r.
Qed.

(** X6. Without a matching ControlPacket nothing is ever returned: on a
    stream that has none the call waits for ever with its variables
    untouched (or fails on a frame of the wrong size), however many
    DataPackets of the responder the stream carries. *)
Theorem no_vin_without_control_packet (frames : list bytes) :
  Forall (no_control bo) frames ->
  (bam_loop bo init_rstate frames 0 = Blocked init_rstate \/
   exists m, bam_loop bo init_rstate frames 0 = StructError m) /\
  (forall vin, receive_bam_vin bo frames <> Ret vin).
Proof.
  intros H.
  assert (G : forall n, bam_loop bo init_rstate frames n = Blocked init_rstate \/
                        exists m, bam_loop bo init_rstate frames n = StructError m).
  { induction H as [|cf rest Hcf _ IH]; intros n; [now left|].
    cbn [bam_loop].
    destruct (unpack bo cf) as [[[can_id dlc] data]|] eqn:U; [|right; now eexists].
    rewrite (step_no_control_idle init_rstate can_id dlc data eq_refl (Hcf _ _ _ U)).
    apply IH. }
  split; [apply G|]. intros vin. rewrite receive_bam_vin_end.
  destruct (G 0%nat) as [E | [m E]]; rewrite E; discriminate.
Qed.

(** X8. A received frame that is not 16 bytes long makes [struct.unpack]
    raise when the loop gets to it: after frames that left the loop waiting,
    the call ends with [struct.error] at that frame and returns no VIN,
    whatever follows. *)
Theorem short_frame_raises (pre : list bytes) (st1 : rstate) (bad : bytes)
    (rest : list bytes) :
  bam_loop bo init_rstate pre 0 = Blocked st1 ->
  length bad <> 16%nat ->
  bam_loop bo init_rstate (pre ++ bad :: rest) 0 = StructError (length pre) /\
  receive_bam_vin bo (pre ++ bad :: rest) = Raise struct_error.
Proof.
  intros P L.
  assert (E : bam_loop bo init_rstate (pre ++ bad :: rest) 0 = StructError (length pre)).
  { rewrite bam_loop_app, P. cbn [bam_loop]. unfold unpack.
    destruct (Nat.eqb_spec (length bad) 16) as [?|_]; [contradiction|].
    f_equal. lia. }
  split; [exact E|]. now rewrite receive_bam_vin_end, E.
Qed.

End LoopComposition.

Lemma later_frames_not_read_witness :
  let frames := [bam_control 7 1; bam_data 1 "1HGCM82"] in
  receive_bam_vin LittleEndian frames <> Hang /\
  receive_bam_vin LittleEndian (frames ++ [bam_control 7 1; bam_data 1 "XXXXXXX"])
  = Ret (str_lit "1HGCM82").
Proof.
  intros frames.
  assert (H : receive_bam_vin LittleEndian frames <> Hang) by (vm_compute; discriminate).
  split; [exact H|].
  rewrite (proj1 (later_frames_not_read LittleEndian frames
                    [bam_control 7 1; bam_data 1 "XXXXXXX"] H)).
  reflexivity.
Defined.

Lemma control_packet_restarts_witness :
  let pre := [bam_control 17 3; bam_data 1 "XXXXXXX"] in
  let rest := [bam_data 1 "1HGCM82"; bam_data 2 "633A123"; bam_data 3 "456"] in
  receive_bam_vin LittleEndian (pre ++ bam_control 17 3 :: rest)
  = Ret (str_lit "1HGCM82633A123456").
Proof.
  intros pre rest.
  rewrite (proj1 (control_packet_restarts LittleEndian pre _ (bam_control 17 3) rest
                    0x1CECFF00 8
                    (bytes_of_ints [0x20; 17; 3; 0xFF; 0xFF; 0xEC; 0xFE; 0x00])
                    eq_refl eq_refl eq_refl)).
  reflexivity.
Defined.

Lemma no_vin_without_control_packet_witness :
  let frames := [bam_data 1 "1HGCM82"; bam_data 2 "633A123"; bam_data 3 "456"] in
  Forall (no_control LittleEndian) frames /\
  receive_bam_vin LittleEndian frames = Hang.
Proof.
  intros frames.
  assert (H : Forall (no_control LittleEndian) frames).
  { repeat constructor; intros can_id dlc data U; vm_compute in U;
      inversion U; subst; reflexivity. }
  split; [exact H|].
  destruct (proj1 (no_vin_without_control_packet LittleEndian frames H)) as [E | [m E]].
  - unfold receive_bam_vin. now rewrite E.
  - vm_compute in E. discriminate E.
Defined.

Lemma short_frame_raises_witness :
  receive_bam_vin LittleEndian
    ([bam_control 17 3; bam_data 1 "1HGCM82"] ++ bytes_lit "short" :: [bam_data 2 "633A123"])
  = Raise struct_error.
Proof.
  refine (proj2 (short_frame_raises LittleEndian
                   [bam_control 17 3; bam_data 1 "1HGCM82"] _ (bytes_lit "short")
                   [bam_data 2 "633A123"] eq_refl _)).
  simpl. lia.
Defined.

(** ** What the loop keeps true of its variables *)

Lemma byte_at_range (b : bytes) (i : nat) : 0 <= byte_at b i <= 255.
Proof. unfold byte_at. pose proof (Z_of_byte_range (nth i b x00)). lia. Qed.

Lemma slice_1_8_length (data : bytes) :
  length data = 8%nat -> length (slice data 1 8) = 7%nat.
Proof.
  intros H. unfold slice. rewrite length_firstn, length_skipn. lia.
Qed.

Lemma waiting_inv_init : waiting_inv init_rstate.
Proof. unfold waiting_inv, init_rstate. cbn. repeat split; auto; lia. Qed.

(** A turn that does not end the loop keeps [waiting_inv]. *)
Lemma step_keeps_waiting_inv (st st' : rstate) (can_id dlc : Z) (data : bytes) :
  length data = 8%nat -> waiting_inv st ->
  step st can_id dlc data = (st', false) -> waiting_inv st'.
Proof.
  intros L (Hlen & Hr & Ht & He & Hs & Hi). unfold step.
  destruct (is_control can_id data).
  - intros E. inversion E; subst. unfold waiting_inv. cbn.
    pose proof (byte_at_range data 1). pose proof (byte_at_range data 2).
    repeat split; try lia; try discriminate.
  - destruct (is_data st can_id) eqn:D.
    + intros E. injection E as Est Eb. subst st'.
      cbn [vin_bytes total_length] in Eb.
      rewrite Z.geb_leb in Eb. apply Z.leb_gt in Eb.
      rewrite length_app, (slice_1_8_length _ L) in Eb.
      unfold is_data in D. rewrite !andb_true_iff in D. destruct D as [[_ Dc] _].
      unfold waiting_inv.
      cbn [vin_bytes total_length expected_packets collecting received_packets].
      rewrite length_app, (slice_1_8_length _ L), Dc.
      repeat split; try lia; try discriminate.
    + intros E. inversion E; subst.
      exact (conj Hlen (conj Hr (conj Ht (conj He (conj Hs Hi))))).
Qed.

(** The state in which a turn ends the loop. *)
Lemma step_break_shape (st st' : rstate) (can_id dlc : Z) (data : bytes) :
  length data = 8%nat -> waiting_inv st ->
  step st can_id dlc data = (st', true) ->
  collecting st = true /\ collecting st' = true /\
  1 <= received_packets st' <= 37 /\
  Z.of_nat (length (vin_bytes st')) = 7 * received_packets st' /\
  0 <= total_length st' <= 255 /\
  total_length st' <= 7 * received_packets st' /\
  (received_packets st' = 1 \/ 7 * (received_packets st' - 1) < total_length st').
Proof.
  intros L (Hlen & Hr & Ht & He & Hs & Hi). unfold step.
  destruct (is_control can_id data); [discriminate|].
  destruct (is_data st can_id) eqn:D; [|discriminate].
  intros E. injection E as Est Eb. subst st'.
  cbn [vin_bytes total_length] in Eb.
  rewrite Z.geb_leb in Eb. apply Z.leb_le in Eb.
  rewrite length_app, (slice_1_8_length _ L) in Eb.
  unfold is_data in D. rewrite !andb_true_iff in D. destruct D as [[_ Dc] _].
  cbn [vin_bytes total_length expected_packets collecting received_packets].
  rewrite length_app, (slice_1_8_length _ L).
  repeat split; try assumption; try lia.
Qed.

Section LoopInvariant.

Variable bo : byteorder.

Lemma bam_loop_shape (frames : list bytes) :
  forall st n0,
    waiting_inv st -> (collecting st = true -> (1 <= n0)%nat) ->
    match bam_loop bo st frames n0 with
    | Broke n st' =>
        (2 <= n <= n0 + length frames)%nat /\
        collecting st' = true /\
        1 <= received_packets st' <= 37 /\
        Z.of_nat (length (vin_bytes st')) = 7 * received_packets st' /\
        0 <= total_length st' <= 255 /\
        total_length st' <= 7 * received_packets st' /\
        (received_packets st' = 1 \/ 7 * (received_packets st' - 1) < total_length st')
    | StructError n => (n0 <= n < n0 + length frames)%nat
    | Blocked st' => waiting_inv st'
    end.
Proof.
  induction frames as [|cf rest IH]; intros st n0 Inv Hn; [exact Inv|].
  cbn [bam_loop length].
  destruct (unpack bo cf) as [[[can_id dlc] data]|] eqn:U; [|lia].
  pose proof (unpack_data_length _ _ _ _ _ U) as L.
  destruct (step st can_id dlc data) as [st1 [|]] eqn:E.
  - destruct (step_break_shape _ _ _ _ _ L Inv E) as (Hc & Rest).
    split; [specialize (Hn Hc); lia | exact Rest].
  - specialize (IH st1 (S n0) (step_keeps_waiting_inv _ _ _ _ _ L Inv E)).
    assert (Hn' : collecting st1 = true -> (1 <= S n0)%nat) by (intros _; lia).
    specialize (IH Hn').
    destruct (bam_loop bo st1 rest (S n0)); [|lia|exact IH].
    destruct IH as (Hb & Rest). split; [lia | exact Rest].
Qed.

(** X7. Whenever [receive_bam_vin] stops collecting, it has read at least
    two frames, counted [k] DataPackets with [1 <= k <= 37], and holds
    exactly [7 * k] bytes, where [k] is the least number of 7-byte chunks
    that reaches the announced length (one chunk when that length is 0);
    the announced length is a byte.  While it is still waiting it holds 7
    bytes per counted packet, fewer than announced, so never 255 or more. *)
Theorem reassembly_accumulates_least_chunks (frames : list bytes) :
  match bam_loop bo init_rstate frames 0 with
  | Broke n st =>
      (2 <= n <= length frames)%nat /\
      collecting st = true /\
      1 <= received_packets st <= 37 /\
      Z.of_nat (length (vin_bytes st)) = 7 * received_packets st /\
      0 <= total_length st <= 255 /\
      total_length st <= 7 * received_packets st /\
      (received_packets st = 1 \/ 7 * (received_packets st - 1) < total_length st)
  | StructError n => (n < length frames)%nat
  | Blocked st =>
      Z.of_nat (length (vin_bytes st)) = 7 * received_packets st /\
      Z.of_nat (length (vin_bytes st)) < 255
  end.
Proof.
  pose proof (bam_loop_shape frames init_rstate 0%nat waiting_inv_init) as H.
  assert (Hn : collecting init_rstate = true -> (1 <= 0)%nat) by discriminate.
  specialize (H Hn).
  destruct (bam_loop bo init_rstate frames 0) as [n st|n|st].
  - exact H.
  - lia.
  - destruct H as (Hlen & Hr & Ht & _ & Hs & _). split; [exact Hlen | lia].
Qed.

End LoopInvariant.

(** ** What of a frame the loop looks at *)

Lemma pgn_of_low_24 (can_id : Z) :
  pgn_of can_id = ((can_id mod 2 ^ 24) / 256) mod 65536.
Proof.
  unfold pgn_of, arb_id_of.
  change 0x1FFFFFFF with (Z.ones 29). change 0xFFFF with (Z.ones 16).
  rewrite !Z.land_ones, Z.shiftr_div_pow2 by lia.
  change (2 ^ 29) with 536870912. change (2 ^ 8) with 256.
  change (2 ^ 16) with 65536. change (2 ^ 24) with 16777216.
  Z.div_mod_to_equations. lia.
Qed.

Lemma src_of_low_24 (can_id : Z) : src_of can_id = (can_id mod 2 ^ 24) mod 256.
Proof.
  unfold src_of, arb_id_of.
  change 0x1FFFFFFF with (Z.ones 29). change 0xFF with (Z.ones 8).
  rewrite !Z.land_ones by lia.
  change (2 ^ 29) with 536870912. change (2 ^ 8) with 256.
  change (2 ^ 24) with 16777216.
  Z.div_mod_to_equations. lia.
Qed.

Lemma step_low_24 (st : rstate) (id1 id2 dlc1 dlc2 : Z) (data : bytes) :
  id1 mod 2 ^ 24 = id2 mod 2 ^ 24 ->
  step st id1 dlc1 data = step st id2 dlc2 data.
Proof.
  intros H. unfold step, is_control, is_data.
  now rewrite !(pgn_of_low_24 id1), !(src_of_low_24 id1),
              !(pgn_of_low_24 id2), !(src_of_low_24 id2), H.
Qed.

(** X9. The loop looks only at the low 24 bits of the identifier (PGN field
    and source address) and at the payload: the length field of a frame
    and the upper identifier bits (priority, extended/remote/error flags)
    never change what is returned nor when. *)
Theorem dlc_and_upper_id_bits_unused (bo : byteorder) (fs1 fs2 : list bytes) :
  Forall2 (same_low_24 bo) fs1 fs2 ->
  (forall st n, bam_loop bo st fs1 n = bam_loop bo st fs2 n) /\
  receive_bam_vin bo fs1 = receive_bam_vin bo fs2.
Proof.
  intros H.
  assert (G : forall st n, bam_loop bo st fs1 n = bam_loop bo st fs2 n).
  { induction H as [|cf1 cf2 r1 r2 Hf _ IH]; intros st n; [reflexivity|].
    cbn [bam_loop].
    destruct Hf as [[U1 U2] | (id1 & id2 & dlc1 & dlc2 & data & U1 & U2 & E)];
      rewrite U1, U2; [reflexivity|].
    rewrite (step_low_24 st id1 id2 dlc1 dlc2 data E).
    destruct (step st id2 dlc2 data) as [st1 [|]]; [reflexivity | apply IH]. }
  split; [exact G|]. unfold receive_bam_vin. now rewrite G.
Qed.

Lemma dlc_and_upper_id_bits_unused_witness :
  let fs1 := [bam_control 7 1; bam_data 1 "1HGCM82"] in
  let fs2 := [frame_of LittleEndian 0xE0ECFF00 0
                (bytes_of_ints [0x20; 7; 1; 0xFF; 0xFF; 0xEC; 0xFE; 0x00]);
              frame_of LittleEndian 0x00EBFF00 255 (byte_of_Z 1 :: bytes_lit "1HGCM82")] in
  Forall2 (same_low_24 LittleEndian) fs1 fs2 /\
  receive_bam_vin LittleEndian fs2 = Ret (str_lit "1HGCM82").
Proof.
  intros fs1 fs2.
  assert (H : Forall2 (same_low_24 LittleEndian) fs1 fs2).
  { apply Forall2_cons; [|apply Forall2_cons; [|apply Forall2_nil]].
    - right. exists 0x1CECFF00, 0xE0ECFF00, 8, 0. eexists.
      split; [reflexivity | split; reflexivity].
    - right. exists 0x1CEBFF00, 0x00EBFF00, 8, 255. eexists.
      split; [reflexivity | split; reflexivity]. }
  split; [exact H|].
  rewrite <- (proj2 (dlc_and_upper_id_bits_unused LittleEndian fs1 fs2 H)).
  reflexivity.
Defined.

(** ** The UTF-8 codec on any text *)

Lemma utf8_encode_cp_1 (z0 : Z) :
  0 <= z0 < 0x80 -> utf8_encode_cp z0 = Some [byte_of_Z z0].
Proof.
  intros H. unfold utf8_encode_cp.
  destruct (Z.ltb_spec z0 0); [lia|]. destruct (Z.ltb_spec z0 0x80); [reflexivity | lia].
Qed.

Lemma utf8_encode_cp_2 (z0 z1 : Z) :
  0xC2 <= z0 < 0xE0 -> 0x80 <= z1 <= 0xBF ->
  utf8_encode_cp ((z0 - 0xC0) * 64 + (z1 - 0x80)) = Some [byte_of_Z z0; byte_of_Z z1].
Proof.
  intros H0 H1. unfold utf8_encode_cp. set (c := (z0 - 0xC0) * 64 + (z1 - 0x80)).
  destruct (Z.ltb_spec c 0); [lia|]. destruct (Z.ltb_spec c 0x80); [lia|].
  destruct (Z.ltb_spec c 0x800); [|lia].
  assert (E0 : 0xC0 + c / 64 = z0) by (subst c; Z.div_mod_to_equations; lia).
  assert (E1 : 0x80 + c mod 64 = z1) by (subst c; Z.div_mod_to_equations; lia).
  now rewrite E0, E1.
Qed.

Lemma utf8_encode_cp_3 (z0 z1 z2 : Z) :
  0xE0 <= z0 < 0xF0 -> 0x80 <= z1 <= 0xBF -> 0x80 <= z2 <= 0xBF ->
  (z0 = 0xE0 -> 0xA0 <= z1) -> (z0 = 0xED -> z1 <= 0x9F) ->
  utf8_encode_cp ((z0 - 0xE0) * 4096 + (z1 - 0x80) * 64 + (z2 - 0x80))
  = Some [byte_of_Z z0; byte_of_Z z1; byte_of_Z z2].
Proof.
  intros H0 H1 H2 Hlo Hhi. unfold utf8_encode_cp.
  set (c := (z0 - 0xE0) * 4096 + (z1 - 0x80) * 64 + (z2 - 0x80)).
  destruct (Z.ltb_spec c 0); [lia|]. destruct (Z.ltb_spec c 0x80); [lia|].
  destruct (Z.ltb_spec c 0x800); [lia|]. destruct (Z.ltb_spec c 0x10000); [|lia].
  replace ((0xD800 <=? c) && (c <=? 0xDFFF)) with false
    by (symmetry; apply andb_false_iff; rewrite Z.leb_gt, Z.leb_gt; lia).
  assert (E0 : 0xE0 + c / 4096 = z0) by (subst c; Z.div_mod_to_equations; lia).
  assert (E1 : 0x80 + (c / 64) mod 64 = z1) by (subst c; Z.div_mod_to_equations; lia).
  assert (E2 : 0x80 + c mod 64 = z2) by (subst c; Z.div_mod_to_equations; lia).
  now rewrite E0, E1, E2.
Qed.

Lemma utf8_encode_cp_4 (z0 z1 z2 z3 : Z) :
  0xF0 <= z0 < 0xF5 -> 0x80 <= z1 <= 0xBF -> 0x80 <= z2 <= 0xBF ->
  0x80 <= z3 <= 0xBF ->
  (z0 = 0xF0 -> 0x90 <= z1) -> (z0 = 0xF4 -> z1 <= 0x8F) ->
  utf8_encode_cp ((z0 - 0xF0) * 262144 + (z1 - 0x80) * 4096 + (z2 - 0x80) * 64
                  + (z3 - 0x80))
  = Some [byte_of_Z z0; byte_of_Z z1; byte_of_Z z2; byte_of_Z z3].
Proof.
  intros H0 H1 H2 H3 Hlo Hhi. unfold utf8_encode_cp.
  set (c := (z0 - 0xF0) * 262144 + (z1 - 0x80) * 4096 + (z2 - 0x80) * 64 + (z3 - 0x80)).
  destruct (Z.ltb_spec c 0); [lia|]. destruct (Z.ltb_spec c 0x80); [lia|].
  destruct (Z.ltb_spec c 0x800); [lia|]. destruct (Z.ltb_spec c 0x10000); [lia|].
  destruct (Z.ltb_spec c 0x110000); [|lia].
  assert (E0 : 0xF0 + c / 262144 = z0) by (subst c; Z.div_mod_to_equations; lia).
  assert (E1 : 0x80 + (c / 4096) mod 64 = z1) by (subst c; Z.div_mod_to_equations; lia).
  assert (E2 : 0x80 + (c / 64) mod 64 = z2) by (subst c; Z.div_mod_to_equations; lia).
  assert (E3 : 0x80 + c mod 64 = z3) by (subst c; Z.div_mod_to_equations; lia).
  now rewrite E0, E1, E2, E3.
Qed.

(** One decoding step: the bytes it takes are the encoding of the character
    it yields. *)
Ltac finish_step :=
  cbn [app length]; repeat split; try assumption; try reflexivity; lia.

Lemma utf8_decode_step (b0 : byte) (r0 : bytes) (s : pystr) :
  utf8_decode (b0 :: r0) = Some s ->
  exists c s' pre r,
    b0 :: r0 = pre ++ r /\ s = c :: s' /\ utf8_decode r = Some s' /\
    utf8_encode_cp c = Some pre /\ (length r < length (b0 :: r0))%nat.
Proof.
  cbn [utf8_decode]. pose proof (Z_of_byte_range b0) as R0.
  destruct (Z.ltb_spec (Z_of_byte b0) 0x80) as [H1|H1].
  { destruct (utf8_decode r0) as [s'|] eqn:D; [|discriminate].
    intros H. inversion H. exists (Z_of_byte b0), s', [b0], r0.
    rewrite utf8_encode_cp_1, byte_of_Z_of_byte by lia. finish_step. }
  destruct (Z.ltb_spec (Z_of_byte b0) 0xC2) as [H2|H2]; [discriminate|].
  destruct (Z.ltb_spec (Z_of_byte b0) 0xE0) as [H3|H3].
  { destruct r0 as [|b1 r1]; [discriminate|].
    destruct (in_range 0x80 0xBF b1) eqn:I1; [|discriminate].
    apply in_range_iff in I1. unfold cont.
    destruct (utf8_decode r1) as [s'|] eqn:D; [|discriminate].
    intros H. inversion H. eexists _, s', [b0; b1], r1.
    split; [reflexivity|]. split; [reflexivity|].
    rewrite utf8_encode_cp_2, !byte_of_Z_of_byte by lia. finish_step. }
  destruct (Z.ltb_spec (Z_of_byte b0) 0xF0) as [H4|H4].
  { destruct r0 as [|b1 [|b2 r2]]; try discriminate.
    destruct (in_range _ _ b1) eqn:I1; [|discriminate].
    destruct (in_range 0x80 0xBF b2) eqn:I2; [|discriminate].
    apply in_range_iff in I1, I2. unfold cont. cbn [andb].
    destruct (utf8_decode r2) as [s'|] eqn:D; [|discriminate].
    intros H. inversion H. eexists _, s', [b0; b1; b2], r2.
    split; [reflexivity|]. split; [reflexivity|].
    rewrite utf8_encode_cp_3, !byte_of_Z_of_byte;
      try (destruct (Z.eqb_spec (Z_of_byte b0) 0xE0);
           destruct (Z.eqb_spec (Z_of_byte b0) 0xED); lia).
    finish_step. }
  destruct (Z.ltb_spec (Z_of_byte b0) 0xF5) as [H5|H5]; [|discriminate].
  destruct r0 as [|b1 [|b2 [|b3 r3]]]; try discriminate.
  destruct (in_range _ _ b1) eqn:I1; [|discriminate].
  destruct (in_range 0x80 0xBF b2) eqn:I2; [|discriminate].
  destruct (in_range 0x80 0xBF b3) eqn:I3; [|discriminate].
  apply in_range_iff in I1, I2, I3. unfold cont. cbn [andb].
  destruct (utf8_decode r3) as [s'|] eqn:D; [|discriminate].
  intros H. inversion H. eexists _, s', [b0; b1; b2; b3], r3.
    split; [reflexivity|]. split; [reflexivity|].
  rewrite utf8_encode_cp_4, !byte_of_Z_of_byte;
    try (destruct (Z.eqb_spec (Z_of_byte b0) 0xF0);
         destruct (Z.eqb_spec (Z_of_byte b0) 0xF4); lia).
  finish_step.
Qed.

(** Encoding what was decoded gives the bytes back. *)
Lemma utf8_encode_decode (b : bytes) (s : pystr) :
  utf8_decode b = Some s -> utf8_encode s = Some b.
Proof.
  remember (length b) as n eqn:Hn. revert b s Hn.
  induction n as [n IH] using lt_wf_ind. intros [|b0 r0] s Hn H.
  - inversion H. reflexivity.
  - apply utf8_decode_step in H.
    destruct H as (c & s' & pre & r & Eb & Es & D & Ec & L).
    subst s. cbn [utf8_encode]. rewrite Ec.
    rewrite (IH (length r) ltac:(lia) r s' eq_refl D). now rewrite Eb.
Qed.

Lemma utf8_encode_app (a b : pystr) (x y : bytes) :
  utf8_encode a = Some x -> utf8_encode b = Some y ->
  utf8_encode (a ++ b) = Some (x ++ y).
Proof.
  revert x. induction a as [|c a IH]; intros x Ha Hb.
  - inversion Ha. exact Hb.
  - cbn [app utf8_encode] in *.
    destruct (utf8_encode_cp c) as [p|]; [|discriminate].
    destruct (utf8_encode a) as [q|]; [|discriminate].
    inversion Ha. rewrite (IH q eq_refl Hb). now rewrite app_assoc.
Qed.

Lemma utf8_encode_firstn (n : nat) (s : pystr) :
  forall b, utf8_encode s = Some b ->
  exists pre, utf8_encode (firstn n s) = Some pre /\ is_prefix pre b.
Proof.
  revert n. induction s as [|c s IH]; intros [|n] b H;
    try (exists []; split; [reflexivity | now exists b]).
  cbn [firstn utf8_encode] in *.
  destruct (utf8_encode_cp c) as [p|]; [|discriminate].
  destruct (utf8_encode s) as [q|]; [|discriminate].
  inversion H; subst. destruct (IH n q eq_refl) as (pre & E & rest & Eq).
  exists (p ++ pre). rewrite E. split; [reflexivity|].
  exists rest. now rewrite Eq, app_assoc.
Qed.

(** ** The retrieval and the backend service *)

(** X10. A VIN that [receive_bam_vin] returns is ASCII text of at most 17
    characters, so [vin.encode()] in the backend never raises and yields
    one byte per character, at most 17 bytes, which decode to the VIN
    again. *)
Theorem returned_vin_is_short_ascii (bo : byteorder) (frames : list bytes)
    (vin : pystr) :
  receive_bam_vin bo frames = Ret vin ->
  is_ascii vin /\ (length vin <= 17)%nat /\
  utf8_encode vin = Some (map byte_of_Z vin) /\
  (length (map byte_of_Z vin) <= 17)%nat /\
  utf8_decode (map byte_of_Z vin) = Some vin.
Proof.
  intros R. destruct (receive_bam_vin_shape _ _ _ R) as [A L].
  split; [exact A|]. split; [exact L|].
  split; [now apply utf8_encode_ascii|].
  split; [now rewrite length_map | now apply utf8_decode_ascii].
Qed.

Lemma returned_vin_is_short_ascii_witness :
  let frames := [bam_control 3 1; frame_of LittleEndian 0x1CEBFF00 8
                                    (bytes_of_ints [1; 0x56; 0xFF; 0x49; 0x80; 0x4E; 0xFF; 0xFF])] in
  receive_bam_vin LittleEndian frames = Ret (str_lit "VIN") /\
  utf8_encode (str_lit "VIN") = Some (bytes_lit "VIN").
Proof.
  intros frames.
  assert (R : receive_bam_vin LittleEndian frames = Ret (str_lit "VIN")) by reflexivity.
  split; [exact R|].
  exact (proj1 (proj2 (proj2 (returned_vin_is_short_ascii LittleEndian frames _ R)))).
Defined.

(** X12. [get_vin_from_can] always opens the CAN socket and sends the one
    request frame before it reads anything; it closes the socket only when
    the retrieval returns.  When [struct.unpack] raises, or the responder
    never completes the announcement, the socket is left open. *)
Theorem get_vin_from_can_closes_only_on_success (bo : byteorder)
    (frames : list bytes) :
  exists frame,
    vin_request_frame bo = Some frame /\
    get_vin_from_can bo frames
    = match receive_bam_vin bo frames with
      | Ret vin => ([CanOpen; CanSend frame; CanClose], Ret vin)
      | Raise e => ([CanOpen; CanSend frame], Raise e)
      | Hang => ([CanOpen; CanSend frame], Hang)
      end.
Proof.
  destruct (vin_request_frame_some bo) as (frame & F).
  exists frame. split; [exact F|].
  unfold get_vin_from_can, send_vin_request. rewrite F.
  now destruct (receive_bam_vin bo frames).
Qed.

Lemma actualdll_on_failure (bo : byteorder) (mode : bool) (frames : list bytes)
    (frame : bytes) :
  vin_request_frame bo = Some frame ->
  (forall e, receive_bam_vin bo frames = Raise e ->
     actualdll_socket_server bo mode (bytes_lit "VIN_REQUEST") frames
     = ([TcpBind (PORT mode); TcpAccept; CanOpen; CanSend frame; ConnClose],
        Raise e)) /\
  (receive_bam_vin bo frames = Hang ->
     actualdll_socket_server bo mode (bytes_lit "VIN_REQUEST") frames
     = ([TcpBind (PORT mode); TcpAccept; CanOpen; CanSend frame], Hang)).
Proof.
  intros F. split; [intros e R | intros R];
    unfold actualdll_socket_server, get_vin_from_can, send_vin_request;
    rewrite (proj2 (VIN_REQUEST_decode _) eq_refl), F, R; run_io;
    rewrite (proj2 (str_eqb_eq _ _) eq_refl); reflexivity.
Qed.

(** X11. The backend on the request token, by how the retrieval ends.  When
    it returns, the session gets the VIN's bytes and everything is closed.
    When [struct.unpack] raises, the session is closed with nothing written
    to it and the exception leaves the service with the CAN socket and the
    listening socket still open.  When the retrieval never ends, nothing
    is written and nothing is closed: the client waits for ever. *)
Theorem backend_on_request_by_outcome (bo : byteorder) (mode : bool)
    (frames : list bytes) :
  exists frame,
    vin_request_frame bo = Some frame /\
    actualdll_socket_server bo mode (bytes_lit "VIN_REQUEST") frames
    = match receive_bam_vin bo frames with
      | Ret vin =>
          ([TcpBind (PORT mode); TcpAccept; CanOpen; CanSend frame; CanClose;
            ConnSendall (map byte_of_Z vin); ConnClose; TcpClose], Ret tt)
      | Raise e =>
          ([TcpBind (PORT mode); TcpAccept; CanOpen; CanSend frame; ConnClose],
           Raise e)
      | Hang =>
          ([TcpBind (PORT mode); TcpAccept; CanOpen; CanSend frame], Hang)
      end.
Proof.
  destruct (vin_request_frame_some bo) as (frame & F).
  exists frame. split; [exact F|].
  destruct (receive_bam_vin bo frames) as [vin|e|] eqn:R.
  - destruct (actualdll_on_request bo mode frames vin R) as (frame' & F' & B).
    rewrite B. congruence.
  - now apply (proj1 (actualdll_on_failure bo mode frames frame F)).
  - now apply (proj2 (actualdll_on_failure bo mode frames frame F)).
Qed.

(** ** The tamper rule and the shim on any backend answer *)

(** X13. On a string of at most 10 characters the rule only appends the
    marker; on one of at least 10 characters applying the rule twice is the
    same as applying it once.  The result always has [min(10, len) + 9]
    characters, the last nine being the marker. *)
Theorem tamper_rule_short_and_twice (v : pystr) :
  ((length v <= 10)%nat -> TamperRule v = v ++ str_lit "HACKED123") /\
  ((10 <= length v)%nat -> TamperRule (TamperRule v) = TamperRule v) /\
  length (TamperRule v) = (Nat.min 10 (length v) + 9)%nat /\
  skipn (Nat.min 10 (length v)) (TamperRule v) = str_lit "HACKED123".
Proof.
  split; [|split; [|split]].
  - intros H. rewrite TamperRule_unfold. now rewrite firstn_all2.
  - intros H. rewrite !TamperRule_unfold. f_equal.
    rewrite firstn_app, length_firstn, Nat.min_l by lia.
    rewrite Nat.sub_diag, firstn_O, app_nil_r.
    now rewrite firstn_firstn.
  - apply TamperRule_length.
  - rewrite TamperRule_unfold, skipn_app, length_firstn, Nat.sub_diag.
    rewrite skipn_all2 by (rewrite length_firstn; lia). reflexivity.
Qed.

(** X14. The shim on the request token, for every backend answer that is
    valid UTF-8: it never raises, closes both sessions, and what it writes
    back is the beginning of the backend's answer (the encoding of its
    first 10 characters, all of it when shorter) followed by the bytes of
    the marker. *)
Theorem shim_answer_is_prefix_plus_marker (fwd_raw : bytes) (real_vin : pystr) :
  utf8_decode fwd_raw = Some real_vin ->
  exists pre,
    utf8_encode (firstn 10 real_vin) = Some pre /\
    is_prefix pre fwd_raw /\
    shimdll_socket_server (bytes_lit "VIN_REQUEST") fwd_raw
    = ([TcpBind 1337; TcpAccept; FwdConnect 1555;
        FwdSendall (bytes_lit "VIN_REQUEST");
        ConnSendall (pre ++ bytes_lit "HACKED123"); FwdClose;
        ConnClose; TcpClose], Ret tt).
Proof.
  intros D.
  destruct (utf8_encode_firstn 10 real_vin fwd_raw (utf8_encode_decode _ _ D))
    as (pre & E & P).
  exists pre. split; [exact E|]. split; [exact P|].
  apply (shimdll_on_request fwd_raw real_vin _ D).
  rewrite TamperRule_unfold. now apply utf8_encode_app.
Qed.

Lemma shim_answer_is_prefix_plus_marker_witness :
  response_of (fst (shimdll_socket_server (bytes_lit "VIN_REQUEST")
                      [xe2; x82; xac; x31; x32]))
  = [xe2; x82; xac; x31; x32] ++ bytes_lit "HACKED123".
Proof.
  destruct (shim_answer_is_prefix_plus_marker [xe2; x82; xac; x31; x32]
              [8364; 49; 50] eq_refl) as (pre & E & _ & S).
  rewrite S. vm_compute in E. inversion E. reflexivity.
Defined.

(** X15. The shim on the request token when the backend's answer is not
    valid UTF-8: the request was already forwarded, the client's session is
    closed with nothing written to it, and [UnicodeDecodeError] leaves the
    service with the session to the backend and the listening socket still
    open. *)
Theorem shim_on_undecodable_answer (fwd_raw : bytes) :
  utf8_decode fwd_raw = None ->
  shimdll_socket_server (bytes_lit "VIN_REQUEST") fwd_raw
  = ([TcpBind 1337; TcpAccept; FwdConnect 1555;
      FwdSendall (bytes_lit "VIN_REQUEST"); ConnClose],
     Raise UnicodeDecodeError).
Proof.
  intros D. unfold shimdll_socket_server.
  rewrite (proj2 (VIN_REQUEST_decode _) eq_refl), D. run_io.
  rewrite (proj2 (str_eqb_eq _ _) eq_refl). reflexivity.
Qed.

Lemma shim_on_undecodable_answer_witness :
  response_of (fst (shimdll_socket_server (bytes_lit "VIN_REQUEST") [xc0; x80])) = [] /\
  snd (shimdll_socket_server (bytes_lit "VIN_REQUEST") [xc0; x80])
  = Raise UnicodeDecodeError.
Proof.
  rewrite (shim_on_undecodable_answer [xc0; x80] eq_refl). split; reflexivity.
Defined.

(** ** The diagnostic application against the services *)

Lemma user_request_vin_decoded (resp_raw : bytes) (vin : pystr) :
  utf8_decode resp_raw = Some vin ->
  user_request_vin resp_raw
  = ([CliConnect 1337; CliSendall (bytes_lit "VIN_REQUEST");
      CliPrint (str_lit "[Client] Received VIN: " ++ vin); CliClose], Ret tt).
Proof. intros D. unfold user_request_vin. now rewrite D. Qed.

Lemma TamperRule_ascii (v : pystr) : is_ascii v -> is_ascii (TamperRule v).
Proof.
  intros A. rewrite TamperRule_unfold. apply Forall_app. split.
  - now apply is_ascii_firstn.
  - repeat constructor; vm_compute; congruence.
Qed.

Lemma backend_answer (bo : byteorder) (mode : bool) (frames : list bytes)
    (vin : pystr) :
  receive_bam_vin bo frames = Ret vin ->
  response_of (fst (actualdll_socket_server bo mode (bytes_lit "VIN_REQUEST") frames))
  = map byte_of_Z vin.
Proof.
  intros R. destruct (actualdll_on_request bo mode frames vin R) as (frame & _ & B).
  rewrite B. cbn [fst response_of]. apply app_nil_r.
Qed.

Lemma shim_answer (fwd_raw : bytes) (real_vin : pystr) :
  utf8_decode fwd_raw = Some real_vin -> is_ascii real_vin ->
  response_of (fst (shimdll_socket_server (bytes_lit "VIN_REQUEST") fwd_raw))
  = map byte_of_Z (TamperRule real_vin).
Proof.
  intros D A.
  rewrite (shimdll_on_request fwd_raw real_vin _ D
             (utf8_encode_ascii _ (TamperRule_ascii _ A))).
  cbn [fst response_of]. apply app_nil_r.
Qed.

(** X16. End to end without the shim: the backend listens on port 1337,
    where the client connects; the client sends the request token, and
    when the retrieval returns [vin] the client prints the one line
    ["[Client] Received VIN: " + vin] and ends normally. *)
Theorem client_prints_vin_without_shim (bo : byteorder) (frames : list bytes)
    (vin : pystr) :
  receive_bam_vin bo frames = Ret vin ->
  let backend := actualdll_socket_server bo false (bytes_lit "VIN_REQUEST") frames in
  let client := user_request_vin (response_of (fst backend)) in
  In (TcpBind 1337) (fst backend) /\
  In (CliConnect 1337) (fst client) /\
  client_sent (fst client) = bytes_lit "VIN_REQUEST" /\
  client_printed (fst client) = [str_lit "[Client] Received VIN: " ++ vin] /\
  snd client = Ret tt.
Proof.
  intros R backend client.
  destruct (receive_bam_vin_shape _ _ _ R) as [A _].
  assert (C : client
              = ([CliConnect 1337; CliSendall (bytes_lit "VIN_REQUEST");
                  CliPrint (str_lit "[Client] Received VIN: " ++ vin); CliClose],
                 Ret tt)).
  { unfold client, backend. rewrite (backend_answer bo false frames vin R).
    apply user_request_vin_decoded. now apply utf8_decode_ascii. }
  split.
  - unfold backend.
    destruct (actualdll_on_request bo false frames vin R) as (frame & _ & B).
    rewrite B. cbn. auto.
  - rewrite C. cbn. auto.
Qed.

Lemma client_prints_vin_without_shim_witness :
  let frames := [bam_control 17 3; bam_data 1 "1HGCM82"; bam_data 2 "633A123";
                 bam_data 3 "456"] in
  client_printed
    (fst (user_request_vin
            (response_of (fst (actualdll_socket_server LittleEndian false
                                 (bytes_lit "VIN_REQUEST") frames)))))
  = [str_lit "[Client] Received VIN: 1HGCM82633A123456"].
Proof.
  intros frames.
  destruct (client_prints_vin_without_shim LittleEndian frames
              (str_lit "1HGCM82633A123456") eq_refl) as (_ & _ & _ & P & _).
  exact P.
Defined.

(** X17. End to end with the shim: the backend listens on port 1555, where
    the shim connects; the shim listens on port 1337, where the client
    connects; and when the retrieval returns [vin] the client prints
    ["[Client] Received VIN: " + TamperRule(vin)], never [vin] itself. *)
Theorem client_prints_tampered_vin_with_shim (bo : byteorder)
    (frames : list bytes) (vin : pystr) :
  receive_bam_vin bo frames = Ret vin ->
  let backend := actualdll_socket_server bo true (bytes_lit "VIN_REQUEST") frames in
  let shim := shimdll_socket_server (bytes_lit "VIN_REQUEST") (response_of (fst backend)) in
  let client := user_request_vin (response_of (fst shim)) in
  In (TcpBind 1555) (fst backend) /\
  In (FwdConnect 1555) (fst shim) /\ In (TcpBind 1337) (fst shim) /\
  In (CliConnect 1337) (fst client) /\
  client_sent (fst client) = bytes_lit "VIN_REQUEST" /\
  client_printed (fst client)
  = [str_lit "[Client] Received VIN: " ++ TamperRule vin] /\
  TamperRule vin <> vin /\
  snd client = Ret tt.
Proof.
  intros R backend shim client.
  destruct (receive_bam_vin_shape _ _ _ R) as [A L].
  pose proof (backend_answer bo true frames vin R) as Eb. fold backend in Eb.
  pose proof (utf8_decode_ascii _ A) as D. rewrite <- Eb in D.
  pose proof (shim_answer _ _ D A) as Es. fold shim in Es.
  assert (C : client
              = ([CliConnect 1337; CliSendall (bytes_lit "VIN_REQUEST");
                  CliPrint (str_lit "[Client] Received VIN: " ++ TamperRule vin);
                  CliClose], Ret tt)).
  { unfold client. rewrite Es. apply user_request_vin_decoded.
    apply utf8_decode_ascii. now apply TamperRule_ascii. }
  split.
  { unfold backend.
    destruct (actualdll_on_request bo true frames vin R) as (frame & _ & B).
    rewrite B. cbn. auto. }
  assert (S : shim = ([TcpBind 1337; TcpAccept; FwdConnect 1555;
                       FwdSendall (bytes_lit "VIN_REQUEST");
                       ConnSendall (map byte_of_Z (TamperRule vin)); FwdClose;
                       ConnClose; TcpClose], Ret tt)).
  { unfold shim. apply (shimdll_on_request _ vin _ D).
    apply utf8_encode_ascii. now apply TamperRule_ascii. }
  rewrite S, C. cbn. repeat split; auto.
  apply TamperRule_changes_short. lia.
Qed.

Lemma client_prints_tampered_vin_with_shim_witness :
  let frames := [bam_control 17 3; bam_data 1 "1HGCM82"; bam_data 2 "633A123";
                 bam_data 3 "456"] in
  client_printed
    (fst (user_request_vin
       (response_of (fst (shimdll_socket_server (bytes_lit "VIN_REQUEST")
          (response_of (fst (actualdll_socket_server LittleEndian true
                               (bytes_lit "VIN_REQUEST") frames))))))))
  = [str_lit "[Client] Received VIN: 1HGCM82633HACKED123"].
Proof.
  intros frames.
  destruct (client_prints_tampered_vin_with_shim LittleEndian frames
              (str_lit "1HGCM82633A123456") eq_refl) as (_ & _ & _ & _ & _ & P & _).
  exact P.
Defined.

(** X18. A retrieval that fails with [struct.error] is not reported to the
    client as an error.  Without the shim the client prints an empty VIN;
    with the shim, which reads the backend's silent close as an empty
    answer, the client prints the marker alone as the VIN. *)
Theorem failed_retrieval_shows_as_vin (bo : byteorder) (frames : list bytes)
    (e : exn) :
  receive_bam_vin bo frames = Raise e ->
  let direct :=
    user_request_vin
      (response_of (fst (actualdll_socket_server bo false
                           (bytes_lit "VIN_REQUEST") frames))) in
  let relayed :=
    user_request_vin
      (response_of (fst (shimdll_socket_server (bytes_lit "VIN_REQUEST")
         (response_of (fst (actualdll_socket_server bo true
                              (bytes_lit "VIN_REQUEST") frames)))))) in
  client_printed (fst direct) = [str_lit "[Client] Received VIN: "] /\
  snd direct = Ret tt /\
  client_printed (fst relayed) = [str_lit "[Client] Received VIN: HACKED123"] /\
  snd relayed = Ret tt.
Proof.
  intros R direct relayed.
  destruct (vin_request_frame_some bo) as (frame & F).
  unfold direct, relayed.
  rewrite !(proj1 (actualdll_on_failure bo _ frames frame F) e R).
  repeat split; reflexivity.
Qed.

Lemma failed_retrieval_shows_as_vin_witness :
  let frames := [bam_control 17 3; bytes_lit "short"] in
  receive_bam_vin LittleEndian frames = Raise struct_error /\
  client_printed
    (fst (user_request_vin
       (response_of (fst (shimdll_socket_server (bytes_lit "VIN_REQUEST")
          (response_of (fst (actualdll_socket_server LittleEndian true
                               (bytes_lit "VIN_REQUEST") frames))))))))
  = [str_lit "[Client] Received VIN: HACKED123"].
Proof.
  intros frames.
  assert (R : receive_bam_vin LittleEndian frames = Raise struct_error) by reflexivity.
  split; [exact R|].
  exact (proj1 (proj2 (proj2 (failed_retrieval_shows_as_vin LittleEndian frames _ R)))).
Defined.

(** ** Reassembly of any announced length *)

Section AnyLength.

Variable bo : byteorder.

(** DataPackets that leave the accumulator short of the announced length
    are appended one after the other. *)
Lemma bam_loop_data_run (ds : list bytes) (chunks : list bytes) :
  Forall2 (data_frame bo) ds chunks ->
  forall st rest n,
    collecting st = true ->
    (ds <> [] ->
     Z.of_nat (length (vin_bytes st)) + 7 * Z.of_nat (length ds) < total_length st) ->
    bam_loop bo st (ds ++ rest) n
    = bam_loop bo
        (mk_rstate (vin_bytes st ++ concat chunks) (total_length st)
                   (expected_packets st) true
                   (received_packets st + Z.of_nat (length ds)))
        rest (length ds + n).
Proof.
  induction 1 as [|cf chunk ds chunks (id & dlc & seq & U & P & Hs) _ IH];
    intros st rest n Hc Hlt.
  - cbn [app concat length Z.of_nat]. rewrite app_nil_r, Z.add_0_r.
    destruct st; cbn in *. now rewrite Hc.
  - pose proof (unpack_data_length _ _ _ _ _ U) as L. cbn [length] in L.
    specialize (Hlt ltac:(discriminate)). cbn [length] in Hlt.
    cbn [app]. rewrite (bam_loop_cons bo _ _ _ _ _ _ _ U).
    rewrite step_data by (trivial; lia). cbn [fst snd].
    replace (Z.of_nat (length (vin_bytes st ++ chunk)) >=? total_length st)
      with false by (rewrite length_app; settle_geb).
    rewrite IH; cbn [vin_bytes total_length expected_packets collecting
                     received_packets]; trivial.
    + cbn [concat length]. rewrite <- app_assoc.
      replace (length ds + S n)%nat with (S (length ds) + n)%nat by lia.
      do 2 f_equal. lia.
    + intros _. rewrite length_app. lia.
Qed.

(** X19. Reassembly for any announced length: after a matching
    ControlPacket announcing [tl] bytes, DataPackets of the responder are
    appended in arrival order, whatever their sequence numbers, and the
    loop ends on the first one with which 7 bytes per packet reach [tl]
    (on the first packet when [tl] is 0).  The VIN is the ASCII part of the
    first 17 of the bytes appended. *)
Theorem reassembly_of_announced_length (cf0 : bytes) (id0 dlc0 : Z) (d0 : bytes)
    (ds chunks : list bytes) (last last_chunk : bytes) (rest : list bytes) :
  unpack bo cf0 = Some (id0, dlc0, d0) -> is_control id0 d0 = true ->
  Forall2 (data_frame bo) ds chunks -> data_frame bo last last_chunk ->
  (ds <> [] -> 7 * Z.of_nat (length ds) < byte_at d0 1) ->
  byte_at d0 1 <= 7 * (Z.of_nat (length ds) + 1) ->
  bam_loop bo init_rstate (cf0 :: ds ++ last :: rest) 0
  = Broke (length ds + 2)
      (mk_rstate (concat chunks ++ last_chunk) (byte_at d0 1) (byte_at d0 2) true
                 (Z.of_nat (length ds) + 1)) /\
  receive_bam_vin bo (cf0 :: ds ++ last :: rest)
  = Ret (decode_ascii_ignore (firstn 17 (concat chunks ++ last_chunk))).
Proof.
  intros U0 C0 F (id & dlc & seq & U & P & Hs) Hlt Hge.
  pose proof (unpack_data_length _ _ _ _ _ U) as L. cbn [length] in L.
  assert (Lc : length (concat chunks) = (7 * length ds)%nat).
  { clear - F. induction F as [|cf chunk ds chunks (id & dlc & seq & U & _) _ IH];
      [reflexivity|].
    pose proof (unpack_data_length _ _ _ _ _ U) as L. cbn [length] in L.
    cbn [concat length]. rewrite length_app, IH. lia. }
  assert (E : bam_loop bo init_rstate (cf0 :: ds ++ last :: rest) 0
              = Broke (length ds + 2)
                  (mk_rstate (concat chunks ++ last_chunk) (byte_at d0 1)
                             (byte_at d0 2) true (Z.of_nat (length ds) + 1))).
  { rewrite (bam_loop_cons bo _ _ _ _ _ _ _ U0), (step_control _ _ _ _ C0).
    cbn [fst snd].
    rewrite (bam_loop_data_run ds chunks F) by (cbn; trivial; intros H; specialize (Hlt H); lia).
    cbn [vin_bytes total_length expected_packets received_packets app].
    rewrite (bam_loop_cons bo _ _ _ _ _ _ _ U), step_data by (trivial; lia).
    cbn [fst snd vin_bytes total_length expected_packets received_packets].
    replace (Z.of_nat (length (concat chunks ++ last_chunk)) >=? byte_at d0 1)
      with true by (rewrite length_app, Lc; settle_geb).
    f_equal. lia. }
  split; [exact E|]. unfold receive_bam_vin. now rewrite E, slice_0_17.
Qed.

(** X20. Frames that the loop ignores can be taken out of the stream (or
    put into it) anywhere without changing the outcome. *)
Theorem ignored_frames_can_be_dropped (pre us post : list bytes) :
  Forall (ignored bo) us ->
  receive_bam_vin bo (pre ++ us ++ post) = receive_bam_vin bo (pre ++ post).
Proof.
  intros H. rewrite !receive_bam_vin_end, !bam_loop_app.
  destruct (bam_loop bo init_rstate pre 0) as [n st|n|st1]; try reflexivity.
  rewrite (bam_loop_ignored bo us H), bam_loop_shift.
  apply vin_of_end_shift.
Qed.

End AnyLength.

Lemma reassembly_of_announced_length_witness :
  receive_bam_vin LittleEndian
    ([bam_control 10 2] ++ [bam_data 9 "1HGCM82"] ++ bam_data 9 "633A123" :: [])
  = Ret (str_lit "1HGCM82633A123").
Proof.
  refine (proj2 (reassembly_of_announced_length LittleEndian
            (bam_control 10 2) 0x1CECFF00 8
            (bytes_of_ints [0x20; 10; 2; 0xFF; 0xFF; 0xEC; 0xFE; 0x00])
            [bam_data 9 "1HGCM82"] [bytes_lit "1HGCM82"]
            (bam_data 9 "633A123") (bytes_lit "633A123") []
            eq_refl eq_refl _ _ _ _)).
  - apply Forall2_cons; [|apply Forall2_nil].
    exists 0x1CEBFF00, 8, (byte_of_Z 9). repeat split; reflexivity.
  - exists 0x1CEBFF00, 8, (byte_of_Z 9). repeat split; reflexivity.
  - intros _. vm_compute. reflexivity.
  - vm_compute. discriminate.
Defined.

Lemma ignored_frames_can_be_dropped_witness :
  let noise := frame_of LittleEndian 0x18FEF100 8 (bytes_lit "engine..") in
  Forall (ignored LittleEndian) [noise; noise] /\
  receive_bam_vin LittleEndian
    ([bam_control 7 1] ++ [noise; noise] ++ [bam_data 1 "1HGCM82"])
  = Ret (str_lit "1HGCM82").
Proof.
  intros noise.
  assert (H : Forall (ignored LittleEndian) [noise; noise]).
  { repeat apply Forall_cons; try apply Forall_nil;
      (exists 0x18FEF100, 8, (bytes_lit "engine..");
       split; [reflexivity | right; left; split; vm_compute; discriminate]). }
  split; [exact H|].
  rewrite (ignored_frames_can_be_dropped LittleEndian [bam_control 7 1] [noise; noise]
             [bam_data 1 "1HGCM82"] H).
  reflexivity.
Defined.
